(** * NeuroGraph in-memory storage: a shallow embedding of
      [src/api/storage/memory.py] and of the grid engine it drives.

    Conventions of the embedding.

    - A Python [float] held by a value of the request body or by a scalar
      attribute of a token is an IEEE 754 binary64 number (a primitive
      float): products are rounded to nearest-even as Python rounds them,
      and infinities and NaN exist.
    - Coordinates, radii and the engine's results, which the storage only
      forwards, are read as the exact rationals ([Q]) that finite floats
      denote (the specification itself treats coordinates as unconstrained
      reals).  So are the scales of the CDNA storage: they are only stored
      and compared, and the thresholds [max_val * 0.75] and [max_val * 0.5]
      are exact in binary64.
    - Python [int] values are unbounded integers ([Z]).
    - A [dict] is a finite map ([gmap]); [d.get(k, v)] is a lookup with a
      default.
    - The [threading] locks serialise the method bodies; every method is
      modelled as one atomic state transformer.
    - An exception is an explicit outcome; a method that mutates [self]
      before raising returns the mutated state next to the exception. *)

From Stdlib Require Import PrimFloat SpecFloat FloatOps.
From Stdlib Require Import ZArith QArith Qround Lia Lqa.
From Stdlib Require Import Sorting.Sorted.
From stdpp Require Import gmap strings list sorting.

Open Scope Z_scope.

(** ** Python values and outcomes *)

(** The values a request body can carry into [token_data] and [config]:
    [None], booleans, integers, floats and nested dictionaries. *)
#[warnings="-register-all"]
Inductive PyVal : Type :=
| PyNone
| PyBool (b : bool)
| PyInt (z : Z)
| PyFloat (f : float)
| PyDict (d : gmap string PyVal).

(** Error kinds of the engine (specification, section 7). *)
Inductive GridError : Type :=
| InvalidLayer
| InvalidRadius
| TokenNotIndexed
| GridNotFound
| TokenNotFound
| MaxInstancesReached.

Inductive PyExc : Type :=
| RuntimeError (msg : string)
| TypeError
| ValueError
| OverflowError
| AttributeError
| EngineError (e : GridError).

Inductive Outcome (A : Type) : Type :=
| Return (a : A)
| Raise (e : PyExc).
Arguments Return {A} a.
Arguments Raise {A} e.

Definition is_return {A} (o : Outcome A) : bool :=
  match o with Return _ => true | Raise _ => false end.

(** A state-and-exception monad: the state survives a raise. *)
Definition M (S A : Type) : Type := S -> Outcome A * S.

Definition ret {S A} (a : A) : M S A := fun s => (Return a, s).
Definition raise {S A} (e : PyExc) : M S A := fun s => (Raise e, s).
Definition bind {S A B} (m : M S A) (k : A -> M S B) : M S B :=
  fun s => match m s with
           | (Return a, s') => k a s'
           | (Raise e, s') => (Raise e, s')
           end.
Definition modify {S} (f : S -> S) : M S unit := fun s => (Return tt, f s).
Definition lift {S A} (o : Outcome A) : M S A := fun s => (o, s).

Notation "x <- m ;; k" := (bind m (fun x => k))
  (at level 100, m at next level, right associativity).
Notation "m ;;; k" := (bind m (fun _ => k))
  (at level 100, right associativity).

(** [bool(v)]. *)
Definition py_truthy (v : PyVal) : bool :=
  match v with
  | PyNone => false
  | PyBool b => b
  | PyInt z => negb (z =? 0)
  | PyFloat f => negb (f =? 0)%float
  | PyDict d => negb (Nat.eqb (size d) 0)
  end.

(** [d.get(k, default)]. *)
Definition dict_get (d : gmap string PyVal) (k : string) (default : PyVal) : PyVal :=
  match d !! k with
  | Some v => v
  | None => default
  end.

(** [v.get(k)] on an arbitrary value: only a dictionary has the method. *)
Definition py_get (v : PyVal) (k : string) : Outcome PyVal :=
  match v with
  | PyDict d => Return (dict_get d k PyNone)
  | _ => Raise AttributeError
  end.

Definition is_None (v : PyVal) : bool :=
  match v with PyNone => true | _ => false end.

(** The rational a finite float denotes; an infinity or a NaN denotes
    none. *)
Definition float_to_Q (f : float) : option Q :=
  match Prim2SF f with
  | S754_zero _ => Some 0%Q
  | S754_finite s m e =>
      let mag := if 0 <=? e then inject_Z (Z.pos m * 2 ^ e)
                 else Z.pos m # Z.to_pos (2 ^ (- e)) in
      Some (if s then (- mag)%Q else mag)
  | S754_infinity _ => None
  | S754_nan => None
  end.

(** The number a value denotes where a real is expected ([bool] is a
    subclass of [int]). *)
Definition as_number (v : PyVal) : option Q :=
  match v with
  | PyBool b => Some (if b then 1%Q else 0%Q)
  | PyInt z => Some (inject_Z z)
  | PyFloat f => float_to_Q f
  | _ => None
  end.

(** The conversion of an [int] operand to [float] that [float * int]
    makes: the nearest double, ties to even; an integer beyond the range of
    doubles raises OverflowError. *)
Definition float_of_int (z : Z) : Outcome float :=
  let f := SF2Prim (binary_normalize prec emax z 0 false) in
  if is_infinity f then Raise OverflowError else Return f.

(** [x * z] for a float and an int. *)
Definition float_mul_int (x : float) (z : Z) : Outcome float :=
  match float_of_int z with
  | Return y => Return (x * y)%float
  | Raise e => Raise e
  end.

(** [a * b] for the numeric values.  A product of floats is the IEEE
    product: rounded, and infinite or NaN where the arithmetic says so. *)
Definition py_mul (a b : PyVal) : Outcome PyVal :=
  match a, b with
  | PyFloat x, PyFloat y => Return (PyFloat (x * y)%float)
  | PyFloat x, PyInt y =>
      match float_mul_int x y with
      | Return p => Return (PyFloat p)
      | Raise e => Raise e
      end
  | PyFloat x, PyBool y =>
      match float_mul_int x (Z.b2z y) with
      | Return p => Return (PyFloat p)
      | Raise e => Raise e
      end
  | PyInt x, PyFloat y =>
      match float_mul_int y x with
      | Return p => Return (PyFloat p)
      | Raise e => Raise e
      end
  | PyBool x, PyFloat y =>
      match float_mul_int y (Z.b2z x) with
      | Return p => Return (PyFloat p)
      | Raise e => Raise e
      end
  | PyInt x, PyInt y => Return (PyInt (x * y))
  | PyInt x, PyBool y => Return (PyInt (x * Z.b2z y))
  | PyBool x, PyInt y => Return (PyInt (Z.b2z x * y))
  | PyBool x, PyBool y => Return (PyInt (Z.b2z x * Z.b2z y))
  | _, _ => Raise TypeError
  end.

(** [int(f)] for a float: truncation towards zero; OverflowError for an
    infinity and ValueError for a NaN. *)
Definition float_trunc (f : float) : Outcome Z :=
  match Prim2SF f with
  | S754_zero _ => Return 0
  | S754_finite s m e =>
      let mag := if 0 <=? e then Z.pos m * 2 ^ e else Z.pos m / 2 ^ (- e) in
      Return (if s then - mag else mag)
  | S754_infinity _ => Raise OverflowError
  | S754_nan => Raise ValueError
  end.

(** [int(v)]. *)
Definition py_int (v : PyVal) : Outcome Z :=
  match v with
  | PyBool b => Return (Z.b2z b)
  | PyInt z => Return z
  | PyFloat f => float_trunc f
  | _ => Raise TypeError
  end.

(** ** The Python [Token] (class [core.token.token_v2.Token]) *)

Definition Coord : Type := (Q * Q * Q)%type.

Inductive Flag : Type := FLAG_ACTIVE | FLAG_PERSISTENT.

Record Flags : Type := mkFlags {
  flag_active : bool;
  flag_persistent : bool
}.

(** Modelled from the spec: the Token class is not in the sources at hand.
    Section 3 and 4.1 give its fields (id, one optional coordinate triple
    per layer, weight, field_radius, field_strength, independent flag bits)
    and the defaults of a token built from an id alone.  The three scalar
    attributes are plain Python attributes: they hold whatever is assigned. *)
Record Token : Type := mkToken {
  id : Z;
  coordinates : list (option Coord);
  weight : PyVal;
  field_radius : PyVal;
  field_strength : PyVal;
  flags : Flags
}.

Definition NUM_LAYERS : nat := 8.

(** [Token(id=token_id)]. *)
Definition Token_new (token_id : Z) : Token :=
  {| id := token_id;
     coordinates := replicate NUM_LAYERS None;
     weight := PyFloat 0.5%float;
     field_radius := PyFloat 1%float;
     field_strength := PyFloat 1%float;
     flags := mkFlags false false |}.

(** Flag operations act on independent bits. *)
Definition set_flag (f : Flag) (t : Token) : Token :=
  {| id := id t; coordinates := coordinates t; weight := weight t;
     field_radius := field_radius t; field_strength := field_strength t;
     flags := match f with
              | FLAG_ACTIVE => mkFlags true (flag_persistent (flags t))
              | FLAG_PERSISTENT => mkFlags (flag_active (flags t)) true
              end |}.


Definition set_weight (v : PyVal) (t : Token) : Token :=
  {| id := id t; coordinates := coordinates t; weight := v;
     field_radius := field_radius t; field_strength := field_strength t;
     flags := flags t |}.

Definition set_field_radius (v : PyVal) (t : Token) : Token :=
  {| id := id t; coordinates := coordinates t; weight := weight t;
     field_radius := v; field_strength := field_strength t;
     flags := flags t |}.

Definition set_field_strength (v : PyVal) (t : Token) : Token :=
  {| id := id t; coordinates := coordinates t; weight := weight t;
     field_radius := field_radius t; field_strength := v;
     flags := flags t |}.

(** A component handed to [set_coordinates]: [None] means omitted.  A
    coordinate is a real number (section 3): a float that denotes none is
    refused, a NaN with ValueError and an infinity with OverflowError, as
    [int] refuses them. *)
Definition coord_arg (v : PyVal) : Outcome (option Q) :=
  match v with
  | PyNone => Return None
  | PyFloat f =>
      match float_to_Q f with
      | Some q => Return (Some q)
      | None => Raise (if is_nan f then ValueError else OverflowError)
      end
  | _ => match as_number v with
         | Some q => Return (Some q)
         | None => Raise TypeError
         end
  end.

(** [get_coordinates(layer)]: the triple, or unset. *)
Definition get_coordinates (layer : nat) (t : Token) : option Coord :=
  match coordinates t !! layer with
  | Some c => c
  | None => None
  end.

(** An omitted component keeps the old value, or is 0.0 on the first set. *)
Definition merge_coord (old : option Coord) (x y z : option Q) : Coord :=
  let '(ox, oy, oz) := match old with
                       | Some c => c
                       | None => (0%Q, 0%Q, 0%Q)
                       end in
  (default ox x, default oy y, default oz z).

(** [set_coordinates(layer, x, y, z)]: a layer outside [0,7] is an
    InvalidLayer error. *)
Definition set_coordinates (layer : nat) (x y z : PyVal) : M Token unit :=
  fun t =>
    if negb (layer <? NUM_LAYERS)%nat then (Raise (EngineError InvalidLayer), t)
    else
      match coord_arg x, coord_arg y, coord_arg z with
      | Return qx, Return qy, Return qz =>
          (Return tt,
           {| id := id t;
              coordinates :=
                <[layer := Some (merge_coord (get_coordinates layer t) qx qy qz)]>
                  (coordinates t);
              weight := weight t; field_radius := field_radius t;
              field_strength := field_strength t; flags := flags t |})
      | Raise e, _, _ => (Raise e, t)
      | _, Raise e, _ => (Raise e, t)
      | _, _, Raise e => (Raise e, t)
      end.

(** The key of layer [level] in [token_data]:
    [f'l{level+1}_{"physical sensory ... abstract".split()[level]}']. *)
Definition coord_key (level : nat) : string :=
  match level with
  | 0%nat => "l1_physical"
  | 1%nat => "l2_sensory"
  | 2%nat => "l3_motor"
  | 3%nat => "l4_emotional"
  | 4%nat => "l5_cognitive"
  | 5%nat => "l6_social"
  | 6%nat => "l7_temporal"
  | _ => "l8_abstract"
  end.

(** One round of the loop [for level in range(8)] of [create] and [update]. *)
Definition copy_level (token_data : gmap string PyVal) (level : nat) : M Token unit :=
  let coords := dict_get token_data (coord_key level) PyNone in
  if py_truthy coords then
    x <- lift (py_get coords "x") ;;
    y <- lift (py_get coords "y") ;;
    z <- lift (py_get coords "z") ;;
    if negb (is_None x) || negb (is_None y) || negb (is_None z)
    then set_coordinates level x y z
    else ret tt
  else ret tt.

Fixpoint copy_levels (token_data : gmap string PyVal) (levels : list nat) : M Token unit :=
  match levels with
  | [] => ret tt
  | level :: rest => copy_level token_data level ;;; copy_levels token_data rest
  end.

(** ** Slices *)

(** A bound of the slice [l[start:stop]] on a list of length [n]: a
    negative bound counts from the end, and both ends are clipped to
    [0, n]. *)
Definition slice_bound (n i : Z) : Z :=
  if i <? 0 then Z.max (i + n) 0 else Z.min i n.

(** [l[start:stop]]. *)
Definition py_slice {A} (start stop : Z) (l : list A) : list A :=
  let n := Z.of_nat (length l) in
  let lo := slice_bound n start in
  let hi := slice_bound n stop in
  take (Z.to_nat (hi - lo)) (drop (Z.to_nat lo) l).

(** ** [InMemoryTokenStorage] *)

(** The id packer [create_token_id(local_id, entity_type, domain)] of
    [core.token.token_v2] is not among the sources.  It is taken as a
    parameter: a function that returns the packed id or raises. *)
Class TokenIds : Type := {
  create_token_id : Z -> PyVal -> PyVal -> Outcome Z
}.

Module TokenStorage.

(** The attributes of the instance.  [_initialized] is set to [False] by
    [__new__]; the other two exist from [__init__] on. *)
Record InMemoryTokenStorage : Type := mkStorage {
  _initialized : bool;
  _storage : gmap Z Token;
  _next_local_id : Z
}.

(** The object [__new__] allocates: only [_initialized = False] is set. *)
Definition blank : InMemoryTokenStorage :=
  {| _initialized := false; _storage := ∅; _next_local_id := 0 |}.

(** [__init__]. *)
Definition __init__ (self : InMemoryTokenStorage) : InMemoryTokenStorage :=
  if _initialized self then self
  else {| _initialized := true; _storage := ∅; _next_local_id := 1 |}.

(** [get]. *)
Definition get (token_id : Z) (self : InMemoryTokenStorage) : option Token :=
  _storage self !! token_id.

(** The local part of [create]: build the token from [token_data]. *)
Definition build_token (token_id : Z) (token_data : gmap string PyVal) : Outcome Token :=
  let weight := dict_get token_data "weight" (PyFloat 0.5%float) in
  let field_radius := dict_get token_data "field_radius" (PyFloat 1%float) in
  let field_strength := dict_get token_data "field_strength" (PyFloat 1%float) in
  let persistent := dict_get token_data "persistent" (PyBool false) in
  let token := Token_new token_id in
  let token := set_weight weight token in
  let token := set_field_radius field_radius token in
  let token := set_field_strength field_strength token in
  let token := if py_truthy persistent then set_flag FLAG_PERSISTENT token else token in
  match copy_levels token_data (seq 0 8) token with
  | (Return _, token) => Return token
  | (Raise e, _) => Raise e
  end.

(** [create].  The counter is bumped as soon as the id is packed, before
    the token is filled in; the token is stored last. *)
Definition create `{TokenIds} (token_data : gmap string PyVal)
  : M InMemoryTokenStorage Token :=
  fun self =>
    let entity_type := dict_get token_data "entity_type" (PyInt 0) in
    let domain := dict_get token_data "domain" (PyInt 0) in
    match create_token_id (_next_local_id self) entity_type domain with
    | Raise e => (Raise e, self)
    | Return token_id =>
        let self := {| _initialized := _initialized self;
                       _storage := _storage self;
                       _next_local_id := _next_local_id self + 1 |} in
        match build_token token_id token_data with
        | Raise e => (Raise e, self)
        | Return token =>
            (Return token,
             {| _initialized := _initialized self;
                _storage := <[token_id := token]> (_storage self);
                _next_local_id := _next_local_id self |})
        end
    end.

(** The local id a [create] call consumes: the counter value it packs,
    when the packing returns (line [self._next_local_id += 1] is reached). *)
Definition consumed_local_id `{TokenIds} (token_data : gmap string PyVal)
    (self : InMemoryTokenStorage) : option Z :=
  let entity_type := dict_get token_data "entity_type" (PyInt 0) in
  let domain := dict_get token_data "domain" (PyInt 0) in
  match create_token_id (_next_local_id self) entity_type domain with
  | Raise _ => None
  | Return _ => Some (_next_local_id self)
  end.

(** [if k in token_data: token.attr = token_data[k]]. *)
Definition update_field (token_data : gmap string PyVal) (k : string)
    (setter : PyVal -> Token -> Token) (token : Token) : Token :=
  match token_data !! k with
  | Some v => setter v token
  | None => token
  end.

(** [update].  The token is mutated in place: what was assigned before an
    exception stays assigned. *)
Definition update (token_id : Z) (token_data : gmap string PyVal)
  : M InMemoryTokenStorage (option Token) :=
  fun self =>
    match _storage self !! token_id with
    | None => (Return None, self)
    | Some token =>
        let token := update_field token_data "weight" set_weight token in
        let token := update_field token_data "field_radius" set_field_radius token in
        let token := update_field token_data "field_strength" set_field_strength token in
        let '(r, token) := copy_levels token_data (seq 0 8) token in
        let self := {| _initialized := _initialized self;
                       _storage := <[token_id := token]> (_storage self);
                       _next_local_id := _next_local_id self |} in
        match r with
        | Return _ => (Return (Some token), self)
        | Raise e => (Raise e, self)
        end
    end.

(** [delete]. *)
Definition delete (token_id : Z) (self : InMemoryTokenStorage)
  : bool * InMemoryTokenStorage :=
  match _storage self !! token_id with
  | Some _ =>
      (true, {| _initialized := _initialized self;
                _storage := base.delete token_id (_storage self);
                _next_local_id := _next_local_id self |})
  | None => (false, self)
  end.

(** [count]. *)
Definition count (self : InMemoryTokenStorage) : Z :=
  Z.of_nat (size (_storage self)).

(** [clear]: returns the number of tokens removed. *)
Definition clear (self : InMemoryTokenStorage) : Z * InMemoryTokenStorage :=
  (count self,
   {| _initialized := _initialized self;
      _storage := ∅;
      _next_local_id := 1 |}).

(** The mutating operations of the storage, as data. *)
Inductive Op : Type :=
| OpCreate (token_data : gmap string PyVal)
| OpUpdate (token_id : Z) (token_data : gmap string PyVal)
| OpDelete (token_id : Z)
| OpClear.

Definition is_clear (o : Op) : bool :=
  match o with OpClear => true | _ => false end.

Definition step `{TokenIds} (o : Op) (self : InMemoryTokenStorage)
  : InMemoryTokenStorage :=
  match o with
  | OpCreate token_data => snd (create token_data self)
  | OpUpdate token_id token_data => snd (update token_id token_data self)
  | OpDelete token_id => snd (delete token_id self)
  | OpClear => snd (clear self)
  end.

(** The local id an operation consumes, if any. *)
Definition consumes `{TokenIds} (o : Op) (self : InMemoryTokenStorage) : option Z :=
  match o with
  | OpCreate token_data => consumed_local_id token_data self
  | _ => None
  end.

(** Run a sequence of operations; collect the local ids consumed, oldest
    first. *)
Fixpoint run `{TokenIds} (ops : Datatypes.list Op) (self : InMemoryTokenStorage)
  : Datatypes.list Z * InMemoryTokenStorage :=
  match ops with
  | [] => ([], self)
  | o :: rest =>
      let '(ids, final) := run rest (step o self) in
      (match consumes o self with
       | Some l => l :: ids
       | None => ids
       end, final)
  end.

(** The token ids the successful [create] calls of a run return. *)
Fixpoint allocated `{TokenIds} (ops : Datatypes.list Op) (self : InMemoryTokenStorage)
  : Datatypes.list Z :=
  match ops with
  | [] => []
  | o :: rest =>
      match o with
      | OpCreate token_data =>
          match fst (create token_data self) with
          | Return token => [id token]
          | Raise _ => []
          end
      | _ => []
      end ++ allocated rest (step o self)
  end.

(** *** The singleton protocol

    The class attribute [_instance], the module global [_token_storage]
    and the objects they refer to.  References are locations of a heap, so
    that two names of one object are two copies of one location. *)
Definition loc : Type := nat.

Record World : Type := mkWorld {
  heap : gmap loc InMemoryTokenStorage;
  cls_instance : option loc;       (* InMemoryTokenStorage._instance *)
  _token_storage : option loc      (* module global *)
}.

(** The state of the module once it is imported. *)
Definition initial : World :=
  {| heap := ∅; cls_instance := None; _token_storage := None |}.

(** [__new__(cls)]. *)
Definition __new__ (w : World) : loc * World :=
  match cls_instance w with
  | Some l => (l, w)
  | None =>
      let l := fresh (dom (heap w)) in
      (l, {| heap := <[l := blank]> (heap w);
             cls_instance := Some l;
             _token_storage := _token_storage w |})
  end.

(** A method call on the object at [l] that changes [self]. *)
Definition at_loc (l : loc) (f : InMemoryTokenStorage -> InMemoryTokenStorage)
    (w : World) : World :=
  {| heap := alter f l (heap w);
     cls_instance := cls_instance w;
     _token_storage := _token_storage w |}.

(** [InMemoryTokenStorage()]: [__new__], then [__init__] on its result. *)
Definition construct (w : World) : loc * World :=
  let '(l, w) := __new__ w in
  (l, at_loc l __init__ w).

(** [get_memory_token_storage()]. *)
Definition get_memory_token_storage (w : World) : loc * World :=
  match _token_storage w with
  | Some l => (l, w)
  | None =>
      let '(l, w) := construct w in
      (l, {| heap := heap w; cls_instance := cls_instance w;
             _token_storage := Some l |})
  end.

(** [cleanup_memory_storage()], as far as the token storage goes. *)
Definition cleanup_memory_storage (w : World) : World :=
  let w := match _token_storage w with
           | Some l => at_loc l (fun self => snd (clear self)) w
           | None => w
           end in
  {| heap := heap w; cls_instance := cls_instance w; _token_storage := None |}.

(** What a program can do to the world. *)
Inductive Action : Type :=
| Construct
| GetMemoryTokenStorage
| Cleanup
| Call (l : loc) (o : Op).

Definition act `{TokenIds} (a : Action) (w : World) : World :=
  match a with
  | Construct => snd (construct w)
  | GetMemoryTokenStorage => snd (get_memory_token_storage w)
  | Cleanup => cleanup_memory_storage w
  | Call l o => at_loc l (step o) w
  end.

Definition acts `{TokenIds} (l : Datatypes.list Action) (w : World) : World :=
  foldl (fun w a => act a w) w l.

(** An observation through a reference. *)
Definition deref (l : loc) (w : World) : option InMemoryTokenStorage :=
  heap w !! l.

(** [list(limit, offset)].  The values come in the order of the map, which
    is not the insertion order of a Python [dict]; the properties stated of
    [list] hold for any order. *)
Definition list (limit offset : Z) (self : InMemoryTokenStorage)
  : Datatypes.list Token :=
  let tokens := (map_to_list (_storage self)).*2 in
  if limit =? 0 then tokens
  else py_slice offset (offset + limit) tokens.

End TokenStorage.

(** ** The engine seen from Python (package [neurograph]) *)

(** [CoordinateSpace]: the eight layers. *)
Inductive CoordinateSpace : Type :=
| L1Physical | L2Sensory | L3Motor | L4Emotional
| L5Cognitive | L6Social | L7Temporal | L8Abstract.

Definition space_index (s : CoordinateSpace) : nat :=
  match s with
  | L1Physical => 0 | L2Sensory => 1 | L3Motor => 2 | L4Emotional => 3
  | L5Cognitive => 4 | L6Social => 5 | L7Temporal => 6 | L8Abstract => 7
  end%nat.

(** An exact Euclidean distance: [Sqrt q] denotes the non-negative square
    root of the rational [q].  Distances compare as their radicands do, and
    [Sqrt q] is at most a radius [r >= 0] exactly when [q <= r * r]. *)
Record Distance : Type := Sqrt { radicand : Q }.

Module Rust.

(** The engine-side token as the Python caller fills it in: what
    [neurograph.Token(id)], [set_coordinates], the attribute assignments
    and [set_active] are handed. *)
Record Token : Type := mkToken {
  id : Z;
  coordinates : list (option Coord);
  weight : PyVal;
  field_radius : Z;
  field_strength : Z;
  active : bool
}.

(** [neurograph.Token(id)], before any setter is called. *)
Definition Token_new (token_id : Z) : Token :=
  {| id := token_id; coordinates := replicate NUM_LAYERS None;
     weight := PyFloat 0.5%float; field_radius := 1; field_strength := 1;
     active := false |}.

Definition set_coordinates (s : CoordinateSpace) (c : Coord) (t : Token) : Token :=
  {| id := id t;
     coordinates := <[space_index s := Some c]> (coordinates t);
     weight := weight t; field_radius := field_radius t;
     field_strength := field_strength t; active := active t |}.

Definition get_coordinates (layer : nat) (t : Token) : option Coord :=
  match coordinates t !! layer with
  | Some c => c
  | None => None
  end.

Definition set_weight (v : PyVal) (t : Token) : Token :=
  {| id := id t; coordinates := coordinates t; weight := v;
     field_radius := field_radius t; field_strength := field_strength t;
     active := active t |}.

Definition set_field_radius (v : Z) (t : Token) : Token :=
  {| id := id t; coordinates := coordinates t; weight := weight t;
     field_radius := v; field_strength := field_strength t;
     active := active t |}.

Definition set_field_strength (v : Z) (t : Token) : Token :=
  {| id := id t; coordinates := coordinates t; weight := weight t;
     field_radius := field_radius t; field_strength := v;
     active := active t |}.

Definition set_active (b : bool) (t : Token) : Token :=
  {| id := id t; coordinates := coordinates t; weight := weight t;
     field_radius := field_radius t; field_strength := field_strength t;
     active := b |}.

End Rust.

(** [GridConfig] as the caller fills it in. *)
Record GridConfig : Type := mkGridConfig {
  bucket_size : PyVal;
  density_threshold : PyVal;
  min_field_nodes : PyVal
}.

(** The interface of the native [Grid] class that [memory.py] relies on.
    The storage never looks inside a grid: it constructs one, tests its
    truth value, and forwards calls. *)
Class GridEngine : Type := {
  Grid : Type;
  (** [Grid()] and [Grid(grid_config)] *)
  Grid_new : option GridConfig -> Outcome Grid;
  (** [bool(grid)] *)
  Grid_bool : Grid -> bool;
  (** [grid.add(rust_token)] *)
  Grid_add : Rust.Token -> Grid -> Grid;
  (** [grid.remove(token_id)]: the removed token or [None] *)
  Grid_remove : Z -> Grid -> option Rust.Token * Grid;
  (** [grid.find_neighbors(token_id, space, radius, max_results)] *)
  Grid_find_neighbors : Z -> Z -> Q -> Z -> Grid -> Outcome (list (Z * Distance));
  (** [grid.range_query(space, x, y, z, radius)] *)
  Grid_range_query : Z -> Q -> Q -> Q -> Q -> Grid -> Outcome (list (Z * Distance));
  (** [grid.calculate_field_influence(space, x, y, z, radius)] *)
  Grid_calculate_field_influence : Z -> Q -> Q -> Q -> Q -> Grid -> Outcome Q;
  (** [grid.calculate_density(space, x, y, z, radius)] *)
  Grid_calculate_density : Z -> Q -> Q -> Q -> Q -> Grid -> Outcome Q
}.

(** ** [InMemoryGridStorage] *)

Module GridStorage.
Section WithEngine.
Context `{GridEngine}.

(** The module global set by the guarded import of the bindings. *)
Variable GRID_AVAILABLE : bool.

Record InMemoryGridStorage : Type := mkStorage {
  _grids : gmap Z Grid;
  _next_grid_id : Z
}.

(** The state [__init__] sets up. *)
Definition fresh_storage : InMemoryGridStorage :=
  {| _grids := ∅; _next_grid_id := 1 |}.

(** The [if config:] branch of [create_grid]. *)
Definition make_config (config : option (gmap string PyVal)) : option GridConfig :=
  match config with
  | Some d =>
      if py_truthy (PyDict d) then
        Some {| bucket_size := dict_get d "bucket_size" (PyFloat 10%float);
                density_threshold := dict_get d "density_threshold" (PyFloat 0.5%float);
                min_field_nodes := dict_get d "min_field_nodes" (PyInt 3) |}
      else None
  | None => None
  end.

(** [create_grid]. *)
Definition create_grid (config : option (gmap string PyVal))
  : M InMemoryGridStorage Z :=
  fun self =>
    if negb GRID_AVAILABLE
    then (Raise (RuntimeError "Grid not available. Install Rust bindings."), self)
    else
      match Grid_new (make_config config) with
      | Raise e => (Raise e, self)
      | Return grid =>
          let grid_id := _next_grid_id self in
          (Return grid_id,
           {| _grids := <[grid_id := grid]> (_grids self);
              _next_grid_id := _next_grid_id self + 1 |})
      end.

(** [get_grid]. *)
Definition get_grid (grid_id : Z) (self : InMemoryGridStorage) : option Grid :=
  _grids self !! grid_id.

(** [delete_grid]. *)
Definition delete_grid (grid_id : Z) (self : InMemoryGridStorage)
  : bool * InMemoryGridStorage :=
  match _grids self !! grid_id with
  | Some _ =>
      (true, {| _grids := delete grid_id (_grids self);
                _next_grid_id := _next_grid_id self |})
  | None => (false, self)
  end.

(** [list_grids].  The keys come in the order of the map, which is not the
    insertion order of a Python [dict]; nothing below depends on it. *)
Definition list_grids (self : InMemoryGridStorage) : list Z :=
  (map_to_list (_grids self)).*1.

(** [grid = self._grids.get(grid_id)], then [if not grid]. *)
Definition lookup_grid (grid_id : Z) (self : InMemoryGridStorage) : option Grid :=
  match _grids self !! grid_id with
  | Some grid => if Grid_bool grid then Some grid else None
  | None => None
  end.

Definition space_map : list (nat * CoordinateSpace) :=
  [(0, L1Physical); (1, L2Sensory); (2, L3Motor); (3, L4Emotional);
   (4, L5Cognitive); (5, L6Social); (6, L7Temporal); (7, L8Abstract)]%nat.

(** The loop [for level, space_enum in space_map] of [add_token]. *)
Definition copy_coordinates (token : Token) (rust_token : Rust.Token) : Rust.Token :=
  foldl (fun rt '(level, space_enum) =>
           match get_coordinates level token with
           | Some coords => Rust.set_coordinates space_enum coords rt
           | None => rt
           end) rust_token space_map.

(** [int(v * k)], as in [int(token.field_radius * 100)]. *)
Definition int_of_product (v : PyVal) (k : Z) : Outcome Z :=
  match py_mul v (PyInt k) with
  | Return p => py_int p
  | Raise e => Raise e
  end.

(** "Convert Python Token to Rust Token": the body of [add_token] between
    the grid lookup and [grid.add]. *)
Definition to_rust_token (token : Token) : Outcome Rust.Token :=
  let rust_token := Rust.Token_new (id token) in
  let rust_token := copy_coordinates token rust_token in
  let rust_token := Rust.set_weight (weight token) rust_token in
  match int_of_product (field_radius token) 100 with
  | Raise e => Raise e
  | Return fr =>
      let rust_token := Rust.set_field_radius fr rust_token in
      match int_of_product (field_strength token) 255 with
      | Raise e => Raise e
      | Return fs =>
          let rust_token := Rust.set_field_strength fs rust_token in
          Return (Rust.set_active true rust_token)
      end
  end.

(** [add_token]. *)
Definition add_token (grid_id : Z) (token : Token) : M InMemoryGridStorage bool :=
  fun self =>
    if negb GRID_AVAILABLE
    then (Raise (RuntimeError "Grid not available."), self)
    else
      match lookup_grid grid_id self with
      | None => (Return false, self)
      | Some grid =>
          match to_rust_token token with
          | Raise e => (Raise e, self)
          | Return rust_token =>
              (Return true,
               {| _grids := <[grid_id := Grid_add rust_token grid]> (_grids self);
                  _next_grid_id := _next_grid_id self |})
          end
      end.

(** [remove_token]. *)
Definition remove_token (grid_id token_id : Z) : M InMemoryGridStorage bool :=
  fun self =>
    match lookup_grid grid_id self with
    | None => (Return false, self)
    | Some grid =>
        let '(removed, grid) := Grid_remove token_id grid in
        (Return (bool_decide (is_Some removed)),
         {| _grids := <[grid_id := grid]> (_grids self);
            _next_grid_id := _next_grid_id self |})
    end.

(** [find_neighbors]. *)
Definition find_neighbors (grid_id token_id space : Z) (radius : Q) (max_results : Z)
    (self : InMemoryGridStorage) : Outcome (list (Z * Distance)) :=
  match lookup_grid grid_id self with
  | None => Return []
  | Some grid => Grid_find_neighbors token_id space radius max_results grid
  end.

(** [range_query]. *)
Definition range_query (grid_id space : Z) (x y z radius : Q)
    (self : InMemoryGridStorage) : Outcome (list (Z * Distance)) :=
  match lookup_grid grid_id self with
  | None => Return []
  | Some grid => Grid_range_query space x y z radius grid
  end.

(** [calculate_field_influence]. *)
Definition calculate_field_influence (grid_id space : Z) (x y z radius : Q)
    (self : InMemoryGridStorage) : Outcome Q :=
  match lookup_grid grid_id self with
  | None => Return 0%Q
  | Some grid => Grid_calculate_field_influence space x y z radius grid
  end.

(** [calculate_density]. *)
Definition calculate_density (grid_id space : Z) (x y z radius : Q)
    (self : InMemoryGridStorage) : Outcome Q :=
  match lookup_grid grid_id self with
  | None => Return 0%Q
  | Some grid => Grid_calculate_density space x y z radius grid
  end.

(** The mutating operations, as data. *)
Inductive Op : Type :=
| OpCreateGrid (config : option (gmap string PyVal))
| OpDeleteGrid (grid_id : Z)
| OpAddToken (grid_id : Z) (token : Token)
| OpRemoveToken (grid_id token_id : Z).

Definition step (o : Op) (self : InMemoryGridStorage) : InMemoryGridStorage :=
  match o with
  | OpCreateGrid config => snd (create_grid config self)
  | OpDeleteGrid grid_id => snd (delete_grid grid_id self)
  | OpAddToken grid_id token => snd (add_token grid_id token self)
  | OpRemoveToken grid_id token_id => snd (remove_token grid_id token_id self)
  end.

(** The grid id an operation returns, when it is a [create_grid] that
    returns. *)
Definition created (o : Op) (self : InMemoryGridStorage) : option Z :=
  match o with
  | OpCreateGrid config =>
      match fst (create_grid config self) with
      | Return grid_id => Some grid_id
      | Raise _ => None
      end
  | _ => None
  end.

(** Run a sequence of operations; collect the ids the successful
    [create_grid] calls returned, oldest first. *)
Fixpoint run (ops : list Op) (self : InMemoryGridStorage)
  : list Z * InMemoryGridStorage :=
  match ops with
  | [] => ([], self)
  | o :: rest =>
      let '(ids, final) := run rest (step o self) in
      (match created o self with
       | Some g => g :: ids
       | None => ids
       end, final)
  end.

End WithEngine.
End GridStorage.

(** ** The grid engine *)

Module Engine.

(** Modelled from the spec: the native engine ([src/core_rust]) is not among
    the sources; only its build script is.  The definitions of this module
    follow sections 3, 4.2 and 4.3 of the specification: the bucket key, the
    bucket index of one layer with [insert], [remove] and
    [buckets_in_radius], and the grid with [add], [remove], [len],
    [find_neighbors] and [range_query]. *)
Definition BucketKey : Type := (Z * Z * Z)%type.

Abbreviation BucketIndex := (gmap BucketKey (gset Z)).

(** [(floor(x/bucket_size), floor(y/bucket_size), floor(z/bucket_size))]. *)
Definition bucket_key (b : Q) (c : Coord) : BucketKey :=
  let '(x, y, z) := c in
  (Qfloor (x / b), Qfloor (y / b), Qfloor (z / b)).

Definition bucket (k : BucketKey) (ix : BucketIndex) : gset Z :=
  default ∅ (ix !! k).

(** [insert(token_id, x, y, z)]: idempotent. *)
Definition insert (b : Q) (token_id : Z) (c : Coord) (ix : BucketIndex) : BucketIndex :=
  let k := bucket_key b c in
  <[k := {[token_id]} ∪ bucket k ix]> ix.

(** [remove(token_id, x, y, z)]: an emptied bucket is released. *)
Definition remove (b : Q) (token_id : Z) (c : Coord) (ix : BucketIndex) : BucketIndex :=
  let k := bucket_key b c in
  match ix !! k with
  | None => ix
  | Some s =>
      let s' := s ∖ {[token_id]} in
      if decide (s' = ∅) then delete k ix else <[k := s']> ix
  end.

(** The integers [lo .. hi]. *)
Definition range (lo hi : Z) : list Z := seqZ lo (hi - lo + 1).

(** [buckets_in_radius(x, y, z, radius)]: the bounding cube of bucket keys,
    [floor((x-r)/b) .. floor((x+r)/b)] on each axis. *)
Definition buckets_in_radius (b : Q) (c : Coord) (radius : Q) : list BucketKey :=
  let '(x, y, z) := c in
  flat_map (fun kx =>
    flat_map (fun ky =>
      List.map (fun kz => (kx, ky, kz))
        (range (Qfloor ((z - radius) / b)) (Qfloor ((z + radius) / b))))
      (range (Qfloor ((y - radius) / b)) (Qfloor ((y + radius) / b))))
    (range (Qfloor ((x - radius) / b)) (Qfloor ((x + radius) / b))).

Record Grid : Type := mkGrid {
  grid_bucket_size : Q;
  tokens : gmap Z Rust.Token;
  layers : list BucketIndex
}.

(** A grid without tokens: one empty index per layer. *)
Definition empty (b : Q) : Grid :=
  {| grid_bucket_size := b; tokens := ∅; layers := replicate NUM_LAYERS ∅ |}.

Definition layer_index (l : nat) (g : Grid) : BucketIndex :=
  default ∅ (layers g !! l).

(** The coordinate of token [i] in layer [l], when [i] is in the table and
    has one. *)
Definition coordinate_of (i : Z) (l : nat) (g : Grid) : option Coord :=
  match tokens g !! i with
  | Some t => Rust.get_coordinates l t
  | None => None
  end.

Definition index_layer (b : Q) (t : Rust.Token) (l : nat) (ix : BucketIndex) : BucketIndex :=
  match Rust.get_coordinates l t with
  | Some c => insert b (Rust.id t) c ix
  | None => ix
  end.

Definition unindex_layer (b : Q) (t : Rust.Token) (l : nat) (ix : BucketIndex) : BucketIndex :=
  match Rust.get_coordinates l t with
  | Some c => remove b (Rust.id t) c ix
  | None => ix
  end.

(** [add(token)]: the index entries of an older token of the same id are
    removed first; then the token is indexed in every layer where it has
    coordinates and stored in the table. *)
Definition add (t : Rust.Token) (g : Grid) : Grid :=
  let b := grid_bucket_size g in
  let cleaned :=
    match tokens g !! Rust.id t with
    | Some old => imap (unindex_layer b old) (layers g)
    | None => layers g
    end in
  {| grid_bucket_size := b;
     tokens := <[Rust.id t := t]> (tokens g);
     layers := imap (index_layer b t) cleaned |}.

(** [remove(token_id)]. *)
Definition remove_token (token_id : Z) (g : Grid) : option Rust.Token * Grid :=
  match tokens g !! token_id with
  | Some old =>
      (Some old,
       {| grid_bucket_size := grid_bucket_size g;
          tokens := delete token_id (tokens g);
          layers := imap (unindex_layer (grid_bucket_size g) old) (layers g) |})
  | None => (None, g)
  end.

(** [len()]. *)
Definition len (g : Grid) : nat := size (tokens g).

(** The exact Euclidean distance of two points. *)
Definition distance (p q : Coord) : Distance :=
  let '(x1, y1, z1) := p in
  let '(x2, y2, z2) := q in
  Sqrt ((x2 - x1) * (x2 - x1) + (y2 - y1) * (y2 - y1) + (z2 - z1) * (z2 - z1))%Q.

(** [d <= radius], for a radius that is not negative. *)
Definition within (d : Distance) (radius : Q) : bool :=
  Qle_bool (radicand d) (radius * radius).

(** The order of the results: ascending distance, then ascending id. *)
Definition neighbor_leb (a b : Z * Distance) : bool :=
  match (radicand a.2 ?= radicand b.2)%Q with
  | Lt => true
  | Eq => a.1 <=? b.1
  | Gt => false
  end.

(** The layer an integer names, or InvalidLayer. *)
Definition check_layer (space : Z) : Outcome nat :=
  if (0 <=? space) && (space <? 8)
  then Return (Z.to_nat space)
  else Raise (EngineError InvalidLayer).

(** Coarse pass: the ids in the buckets around [c]. *)
Definition candidates (l : nat) (c : Coord) (radius : Q) (g : Grid) : list Z :=
  elements
    (⋃ (List.map (fun k => bucket k (layer_index l g))
          (buckets_in_radius (grid_bucket_size g) c radius))).

(** Fine pass: exact distances from [c], within [radius], in order. *)
Definition ranked (l : nat) (c : Coord) (radius : Q) (cands : list Z) (g : Grid)
  : list (Z * Distance) :=
  let scored := omap (fun i => match coordinate_of i l g with
                               | Some ci => Some (i, distance c ci)
                               | None => None
                               end) cands in
  let kept := filter (fun p => Is_true (within p.2 radius)) scored in
  merge_sort (fun a b => Is_true (neighbor_leb a b)) kept.

(** [find_neighbors(token_id, layer, radius, max_results)]. *)
Definition find_neighbors (token_id space : Z) (radius : Q) (max_results : Z)
    (g : Grid) : Outcome (list (Z * Distance)) :=
  match check_layer space with
  | Raise e => Raise e
  | Return l =>
      if Qle_bool 0 radius then
        match tokens g !! token_id with
        | None => Raise (EngineError TokenNotFound)
        | Some t =>
            match Rust.get_coordinates l t with
            | None => Raise (EngineError TokenNotIndexed)
            | Some c =>
                let cands := filter (fun i => i ≠ token_id) (candidates l c radius g) in
                Return (take (Z.to_nat max_results) (ranked l c radius cands g))
            end
        end
      else Raise (EngineError InvalidRadius)
  end.

(** [range_query(layer, x, y, z, radius)]: no exclusion, no cap. *)
Definition range_query (space : Z) (x y z radius : Q) (g : Grid)
  : Outcome (list (Z * Distance)) :=
  match check_layer space with
  | Raise e => Raise e
  | Return l =>
      if Qle_bool 0 radius
      then Return (ranked l (x, y, z) radius (candidates l (x, y, z) radius g) g)
      else Raise (EngineError InvalidRadius)
  end.

(** [Grid()] and [Grid(grid_config)]: the default bucket size is 10.0. *)
Definition new (config : option GridConfig) : Outcome Grid :=
  match config with
  | None => Return (empty 10)
  | Some cfg =>
      match as_number (bucket_size cfg) with
      | Some b => Return (empty b)
      | None => Raise TypeError
      end
  end.

(** The truth value of a grid object under the two readings Python allows:
    a class that defines neither [__bool__] nor [__len__] is always true; a
    class that defines [__len__] alone (the router's tests call [len(grid)])
    is false when empty. *)
Definition always_true (g : Grid) : bool := true.
Definition nonempty (g : Grid) : bool := negb (len g =? 0)%nat.

(** The engine as an instance of the interface.  The truth value of a grid
    and the numeric laws of field influence and density (the falloff policy,
    the sphere volume) are left open by the specification and are parameters
    here. *)
Definition engine (truth : Grid -> bool)
    (calculate_field_influence calculate_density
       : Z -> Q -> Q -> Q -> Q -> Grid -> Outcome Q) : GridEngine :=
  Build_GridEngine Grid new truth add remove_token
    find_neighbors range_query calculate_field_influence calculate_density.

(** A grid is populated by [add] and [remove] calls. *)
Inductive Op : Type :=
| OpAdd (t : Rust.Token)
| OpRemove (token_id : Z).

Definition step (o : Op) (g : Grid) : Grid :=
  match o with
  | OpAdd t => add t g
  | OpRemove token_id => snd (remove_token token_id g)
  end.

Definition populate (ops : list Op) (g : Grid) : Grid :=
  foldl (fun g o => step o g) g ops.

(** The order of the results, as a relation: nearer first, and the smaller
    id first at equal distance. *)
Definition precedes (a b : Z * Distance) : Prop :=
  (radicand a.2 < radicand b.2)%Q \/
  ((radicand a.2 == radicand b.2)%Q /\ a.1 <= b.1).

(** Index consistency, as far as a search needs it: there is one index per
    layer, the table is keyed by the tokens' own ids, and a token with a
    coordinate in a layer sits in the bucket of that coordinate. *)
Definition consistent (g : Grid) : Prop :=
  length (layers g) = NUM_LAYERS /\
  (forall i t, tokens g !! i = Some t -> Rust.id t = i) /\
  (forall i l c, (l < NUM_LAYERS)%nat -> coordinate_of i l g = Some c ->
     i ∈ bucket (bucket_key (grid_bucket_size g) c) (layer_index l g)).

End Engine.

(** ** [InMemoryCDNAStorage] *)

(** The values of the CDNA configuration, profiles and history entries:
    the values of [PyVal], and strings and lists. *)
#[warnings="-register-all"]
Inductive JVal : Type :=
| JNone
| JBool (b : bool)
| JInt (z : Z)
| JFloat (q : Q)
| JStr (s : string)
| JList (l : list JVal)
| JDict (d : gmap string JVal).

Module CDNAStorage.

(** The class attribute [PROFILES]. *)
Definition PROFILES : gmap string (gmap string JVal) :=
  list_to_map
    [("explorer",
      list_to_map
        [("name", JStr "Explorer");
         ("scales", JList [JFloat 1; JFloat (3 # 2); JFloat (6 # 5); JFloat 2;
                           JFloat 3; JFloat (5 # 2); JFloat 2; JFloat 5]);
         ("description", JStr "Свободная структура, высокая пластичность");
         ("plasticity", JFloat (4 # 5));
         ("evolution_rate", JFloat (1 # 2))]);
     ("analyzer",
      list_to_map
        [("name", JStr "Analyzer");
         ("scales", JList [JFloat 1; JFloat 1; JFloat 1; JFloat (3 # 2);
                           JFloat 10; JFloat 5; JFloat 3; JFloat 20]);
         ("description", JStr "Строгие правила, низкая эволюция");
         ("plasticity", JFloat (1 # 5));
         ("evolution_rate", JFloat (1 # 10))]);
     ("creative",
      list_to_map
        [("name", JStr "Creative");
         ("scales", JList [JFloat 1; JFloat 2; JFloat 3; JFloat 5;
                           JFloat 8; JFloat 13; JFloat 21; JFloat 34]);
         ("description", JStr "Экспериментальный режим");
         ("plasticity", JFloat (19 # 20));
         ("evolution_rate", JFloat (4 # 5))]);
     ("quarantine",
      list_to_map
        [("name", JStr "Quarantine");
         ("scales", JList [JFloat 1; JFloat 1; JFloat 1; JFloat 1;
                           JFloat 2; JFloat (3 # 2); JFloat 1; JFloat 3]);
         ("description", JStr "Изолированный режим тестирования");
         ("plasticity", JFloat (1 # 10));
         ("evolution_rate", JFloat 0);
         ("restricted", JBool true);
         ("max_change", JFloat (1 # 2))])].

(** The dictionary [_config]: its four keys are fixed; [profile] and
    [dimension_scales] hold whatever a caller puts there. *)
Record Config : Type := mkConfig {
  version : string;
  profile : JVal;
  dimension_scales : JVal;
  timestamp : string
}.

Record Metrics : Type := mkMetrics {
  memory_growth : Z;
  connection_breaks : Z;
  token_churn : Z
}.

(** The dictionary [_quarantine]. *)
Record Quarantine : Type := mkQuarantine {
  active : bool;
  time_left : Z;
  metrics : Metrics
}.

Record InMemoryCDNAStorage : Type := mkStorage {
  _config : Config;
  _history : list (gmap string JVal);
  _quarantine : Quarantine
}.

Definition zero_metrics : Metrics :=
  {| memory_growth := 0; connection_breaks := 0; token_churn := 0 |}.

(** [profile['scales']], copied: [.copy()] and [list(...)] give a new list
    of the same elements. *)
Definition scales_of (profile_id : string) : JVal :=
  match PROFILES !! profile_id with
  | Some p => default JNone (p !! "scales")
  | None => JNone
  end.

(** The state [__init__] sets up; [now] is [datetime.now().isoformat()]. *)
Definition fresh_storage (now : string) : InMemoryCDNAStorage :=
  {| _config := {| version := "2.1.0";
                   profile := JStr "explorer";
                   dimension_scales := scales_of "explorer";
                   timestamp := now |};
     _history := [];
     _quarantine := {| active := false; time_left := 300;
                       metrics := zero_metrics |} |}.

(** [get_config]. *)
Definition get_config (self : InMemoryCDNAStorage) : Config := _config self.

(** [update_config]. *)
Definition update_config (config : gmap string JVal) (now : string)
    (self : InMemoryCDNAStorage) : bool * InMemoryCDNAStorage :=
  let c := _config self in
  let c := match config !! "profile" with
           | Some v => {| version := version c; profile := v;
                          dimension_scales := dimension_scales c;
                          timestamp := timestamp c |}
           | None => c
           end in
  let c := match config !! "dimension_scales" with
           | Some v => {| version := version c; profile := profile c;
                          dimension_scales := v; timestamp := timestamp c |}
           | None => c
           end in
  (true,
   {| _config := {| version := version c; profile := profile c;
                    dimension_scales := dimension_scales c;
                    timestamp := now |};
      _history := _history self;
      _quarantine := _quarantine self |}).

(** [get_profile]. *)
Definition get_profile (profile_id : string) : option (gmap string JVal) :=
  PROFILES !! profile_id.

(** [list_profiles]. *)
Definition list_profiles : gmap string (gmap string JVal) := PROFILES.

(** [switch_profile]. *)
Definition switch_profile (profile_id : string) (now : string)
    (self : InMemoryCDNAStorage) : bool * InMemoryCDNAStorage :=
  match PROFILES !! profile_id with
  | None => (false, self)
  | Some p =>
      (true,
       {| _config := {| version := version (_config self);
                        profile := JStr profile_id;
                        dimension_scales := default JNone (p !! "scales");
                        timestamp := now |};
          _history := _history self;
          _quarantine := _quarantine self |})
  end.

(** [get_history]: the slice [self._history[:limit]]. *)
Definition get_history (limit : Z) (self : InMemoryCDNAStorage)
  : list (gmap string JVal) :=
  py_slice 0 limit (_history self).

(** [add_history]: stamps the entry and puts it first. *)
Definition add_history (entry : gmap string JVal) (now : string)
    (self : InMemoryCDNAStorage) : InMemoryCDNAStorage :=
  {| _config := _config self;
     _history := <["timestamp" := JStr now]> entry :: _history self;
     _quarantine := _quarantine self |}.

(** The list [dimension_limits] of [validate_scales]. *)
Definition dimension_limits : list (Z * Z) :=
  [(0, 20); (0, 20); (0, 20); (0, 20); (0, 30); (0, 20); (0, 20); (0, 50)].

(** The messages of [validate_scales], by what they interpolate: the
    dimension, the value and the bounds or the threshold. *)
Inductive Message : Type :=
| OutOfRange (i : nat) (scale : Q) (min_val max_val : Z)
| DangerZone (i : nat) (scale threshold : Q)
| CautionZone (i : nat) (scale threshold : Q).

Definition Qltb (x y : Q) : bool := negb (Qle_bool y x).

(** The loop of [validate_scales] from dimension [i] on, over the zipped
    pairs: the warnings and the errors, in the order they are appended. *)
Fixpoint validate_from (i : nat) (pairs : list (Q * (Z * Z)))
  : list Message * list Message :=
  match pairs with
  | [] => ([], [])
  | (scale, (min_val, max_val)) :: rest =>
      let '(warnings, errors) := validate_from (S i) rest in
      if Qltb scale (inject_Z min_val) || Qltb (inject_Z max_val) scale
      then (warnings, OutOfRange i scale min_val max_val :: errors)
      else if Qltb (inject_Z max_val * (3 # 4)) scale
      then (DangerZone i scale (inject_Z max_val * (3 # 4)) :: warnings, errors)
      else if Qltb (inject_Z max_val * (1 # 2)) scale
      then (CautionZone i scale (inject_Z max_val * (1 # 2)) :: warnings, errors)
      else (warnings, errors)
  end.

(** [validate_scales]: [(is_valid, warnings, errors)]. *)
Definition validate_scales (scales : list Q)
  : bool * list Message * list Message :=
  let '(warnings, errors) := validate_from 0 (zip scales dimension_limits) in
  (Nat.eqb (length errors) 0, warnings, errors).

(** [get_quarantine_status]. *)
Definition get_quarantine_status (self : InMemoryCDNAStorage) : Quarantine :=
  _quarantine self.

(** [start_quarantine]. *)
Definition start_quarantine (self : InMemoryCDNAStorage)
  : bool * InMemoryCDNAStorage :=
  if active (_quarantine self) then (false, self)
  else
    (true,
     {| _config := _config self;
        _history := _history self;
        _quarantine := {| active := true; time_left := 300;
                          metrics := zero_metrics |} |}).

(** [self._quarantine["metrics"].copy()] as a history value. *)
Definition metrics_value (m : Metrics) : JVal :=
  JDict (list_to_map [("memory_growth", JInt (memory_growth m));
                      ("connection_breaks", JInt (connection_breaks m));
                      ("token_churn", JInt (token_churn m))]).

(** [stop_quarantine]. *)
Definition stop_quarantine (apply : bool) (now : string)
    (self : InMemoryCDNAStorage) : bool * InMemoryCDNAStorage :=
  if negb (active (_quarantine self)) then (false, self)
  else
    let self :=
      {| _config := _config self;
         _history := _history self;
         _quarantine := {| active := false;
                           time_left := time_left (_quarantine self);
                           metrics := metrics (_quarantine self) |} |} in
    let self :=
      if apply then
        add_history
          (list_to_map [("action", JStr "quarantine_applied");
                        ("metrics", metrics_value (metrics (_quarantine self)))])
          now self
      else self in
    (true, self).

(** The mutating operations, as data; each carries the clock reading it
    would make. *)
Inductive Op : Type :=
| OpUpdateConfig (config : gmap string JVal) (now : string)
| OpSwitchProfile (profile_id : string) (now : string)
| OpAddHistory (entry : gmap string JVal) (now : string)
| OpStartQuarantine
| OpStopQuarantine (apply : bool) (now : string).

Definition step (o : Op) (self : InMemoryCDNAStorage) : InMemoryCDNAStorage :=
  match o with
  | OpUpdateConfig config now => (update_config config now self).2
  | OpSwitchProfile profile_id now => (switch_profile profile_id now self).2
  | OpAddHistory entry now => add_history entry now self
  | OpStartQuarantine => (start_quarantine self).2
  | OpStopQuarantine apply now => (stop_quarantine apply now self).2
  end.

Definition run (ops : list Op) (self : InMemoryCDNAStorage) : InMemoryCDNAStorage :=
  foldl (fun self o => step o self) self ops.

(** The floats of a list value, when it is a list of floats or integers. *)
Definition floats_of (v : JVal) : option (list Q) :=
  match v with
  | JList l =>
      mapM (fun x => match x with
                     | JFloat q => Some q
                     | JInt z => Some (inject_Z z)
                     | _ => None
                     end) l
  | _ => None
  end.

End CDNAStorage.

(** ** The module-level accessors *)

Module Memory.

(** One singleton class and the module global that caches its instance:
    the objects of the class ([None] for an object that [__new__] has
    allocated and [__init__] has not yet filled in, so that [_initialized]
    is [False]), the class attribute [_instance], and the global. *)
Record Single (Obj : Type) : Type := mkSingle {
  objects : gmap nat (option Obj);
  _instance : option nat;
  global : option nat
}.
Arguments mkSingle {Obj} _ _ _.
Arguments objects {Obj} _.
Arguments _instance {Obj} _.
Arguments global {Obj} _.

Definition nothing {Obj} : Single Obj :=
  {| objects := ∅; _instance := None; global := None |}.

(** [__new__(cls)]. *)
Definition __new__ {Obj} (c : Single Obj) : nat * Single Obj :=
  match _instance c with
  | Some l => (l, c)
  | None =>
      let l := fresh (dom (objects c)) in
      (l, {| objects := <[l := None]> (objects c);
             _instance := Some l;
             global := global c |})
  end.

(** [__init__(self)], where [init] is the state the constructor body sets
    up. *)
Definition __init__ {Obj} (init : Obj) (l : nat) (c : Single Obj) : Single Obj :=
  {| objects := alter (fun o => match o with
                                | Some _ => o
                                | None => Some init
                                end) l (objects c);
     _instance := _instance c;
     global := global c |}.

(** The call [Cls()]. *)
Definition construct {Obj} (init : Obj) (c : Single Obj) : nat * Single Obj :=
  let '(l, c) := __new__ c in
  (l, __init__ init l c).

(** The body shared by the three accessors:
    [if _x is None: _x = Cls()], then [return _x]. *)
Definition get_memory {Obj} (init : Obj) (c : Single Obj) : nat * Single Obj :=
  match global c with
  | Some l => (l, c)
  | None =>
      let '(l, c) := construct init c in
      (l, {| objects := objects c; _instance := _instance c; global := Some l |})
  end.

(** [_x = None]. *)
Definition release {Obj} (c : Single Obj) : Single Obj :=
  {| objects := objects c; _instance := _instance c; global := None |}.

(** A method call on the object at [l]. *)
Definition call {Obj} (l : nat) (f : Obj -> Obj) (c : Single Obj) : Single Obj :=
  {| objects := alter (fmap f) l (objects c);
     _instance := _instance c;
     global := global c |}.

(** The initialised object at [l], if there is one. *)
Definition object {Obj} (l : nat) (c : Single Obj) : option Obj :=
  match objects c !! l with
  | Some o => o
  | None => None
  end.

Section WithEngine.
Context `{GridEngine} `{TokenIds}.
Variable GRID_AVAILABLE : bool.

(** The three classes with their globals [_token_storage], [_grid_storage]
    and [_cdna_storage]. *)
Record State : Type := mkState {
  token : TokenStorage.World;
  grid : Single GridStorage.InMemoryGridStorage;
  cdna : Single CDNAStorage.InMemoryCDNAStorage
}.

(** The state of the module once it is imported. *)
Definition initial : State :=
  {| token := TokenStorage.initial; grid := nothing; cdna := nothing |}.

(** [get_memory_token_storage()]. *)
Definition get_memory_token_storage (m : State) : nat * State :=
  let '(l, w) := TokenStorage.get_memory_token_storage (token m) in
  (l, {| token := w; grid := grid m; cdna := cdna m |}).

(** [get_memory_grid_storage()]. *)
Definition get_memory_grid_storage (m : State) : nat * State :=
  let '(l, c) := get_memory GridStorage.fresh_storage (grid m) in
  (l, {| token := token m; grid := c; cdna := cdna m |}).

(** [get_memory_cdna_storage()]; [now] is the clock reading [__init__]
    would make. *)
Definition get_memory_cdna_storage (now : string) (m : State) : nat * State :=
  let '(l, c) := get_memory (CDNAStorage.fresh_storage now) (cdna m) in
  (l, {| token := token m; grid := grid m; cdna := c |}).

(** [initialize_memory_storage()]. *)
Definition initialize_memory_storage (now : string) (m : State) : State :=
  let m := (get_memory_token_storage m).2 in
  let m := (get_memory_grid_storage m).2 in
  (get_memory_cdna_storage now m).2.

(** [cleanup_memory_storage()]: the token storage is cleared if the global
    holds it; the three globals are set to [None]. *)
Definition cleanup_memory_storage (m : State) : State :=
  {| token := TokenStorage.cleanup_memory_storage (token m);
     grid := release (grid m);
     cdna := release (cdna m) |}.

(** [is_grid_available()]. *)
Definition is_grid_available : bool := GRID_AVAILABLE.

(** What a program can do to the module. *)
Inductive Action : Type :=
| Initialize (now : string)
| Cleanup
| GetToken
| GetGrid
| GetCdna (now : string)
| OnToken (a : TokenStorage.Action)
| OnGrid (l : nat) (o : GridStorage.Op)
| OnCdna (l : nat) (o : CDNAStorage.Op).

Definition act (a : Action) (m : State) : State :=
  match a with
  | Initialize now => initialize_memory_storage now m
  | Cleanup => cleanup_memory_storage m
  | GetToken => (get_memory_token_storage m).2
  | GetGrid => (get_memory_grid_storage m).2
  | GetCdna now => (get_memory_cdna_storage now m).2
  | OnToken a => {| token := TokenStorage.act a (token m);
                    grid := grid m; cdna := cdna m |}
  | OnGrid l o => {| token := token m;
                     grid := call l (GridStorage.step GRID_AVAILABLE o) (grid m);
                     cdna := cdna m |}
  | OnCdna l o => {| token := token m; grid := grid m;
                     cdna := call l (CDNAStorage.step o) (cdna m) |}
  end.

Definition acts (l : list Action) (m : State) : State :=
  foldl (fun m a => act a m) m l.

End WithEngine.

(** The invariant of one singleton: the instance the class holds is
    initialised, and the global is unset or refers to it. *)
Definition single_inv {Obj} (c : Single Obj) : Prop :=
  match _instance c with
  | None => global c = None
  | Some l =>
      is_Some (object l c) /\ (global c = None \/ global c = Some l)
  end.

End Memory.


(** A sample id packer, used to evaluate the storage on concrete inputs:
    the local id in the low 32 bits, the two integer tags above it.  Every
    property below is stated for an arbitrary packer. *)
Definition sample_ids : TokenIds :=
  {| create_token_id := fun local_id entity_type domain =>
       match entity_type, domain with
       | PyInt e, PyInt d => Return (local_id + 2 ^ 32 * (e + 16 * d))
       | _, _ => Raise TypeError
       end |}.

(** A packer that checks its fields: a local id of 32 bits and two tags
    of 4 bits, packed as [sample_ids] packs them; anything else is refused.
    Equal ids it returns come from equal local ids. *)
Definition checked_ids : TokenIds :=
  {| create_token_id := fun local_id entity_type domain =>
       match entity_type, domain with
       | PyInt e, PyInt d =>
           if (0 <=? local_id) && (local_id <? 2 ^ 32)
              && (0 <=? e) && (e <? 16) && (0 <=? d) && (d <? 16)
           then Return (local_id + 2 ^ 32 * (e + 16 * d))
           else Raise ValueError
       | _, _ => Raise TypeError
       end |}.

(** The condition under which distinct local ids give distinct token ids:
    the packer never returns one id for two local ids, whatever the tags. *)
Definition packs_injectively `{TokenIds} : Prop :=
  forall l l' e e' d d' i,
    create_token_id l e d = Return i ->
    create_token_id l' e' d' = Return i ->
    l = l'.

(** What the coordinate setters leave alone. *)
Definition same_scalars (t t' : Token) : Prop :=
  id t' = id t /\ weight t' = weight t /\ field_radius t' = field_radius t /\
  field_strength t' = field_strength t /\ flags t' = flags t.

(** The invariant of the singleton protocol: once the class holds an
    instance, the instance is initialised, and the module global is either
    unset or the same reference. *)
Definition world_inv (w : TokenStorage.World) : Prop :=
  match TokenStorage.cls_instance w with
  | None => TokenStorage._token_storage w = None
  | Some l =>
      (exists o, TokenStorage.heap w !! l = Some o /\
                 TokenStorage._initialized o = true) /\
      (TokenStorage._token_storage w = None \/
       TokenStorage._token_storage w = Some l)
  end.

(** A stand-in for the two numeric queries that {!Engine.engine} leaves
    open, and the engines it gives; used to evaluate the grid storage on
    concrete inputs.  Every general property below holds for any engine.
    In [spec_engine] every grid is true; in [sized_engine] an empty grid is
    false. *)
Definition no_field : Z -> Q -> Q -> Q -> Q -> Engine.Grid -> Outcome Q :=
  fun _ _ _ _ _ _ => Return 0%Q.

Definition spec_engine : GridEngine :=
  Engine.engine Engine.always_true no_field no_field.

Definition sized_engine : GridEngine :=
  Engine.engine Engine.nonempty no_field no_field.


(** The scenario of the specification (section 8): bucket size 10 and, in
    layer 0, the tokens A = (0, 0, 0), B = (3, 4, 0) and C = (100, 100, 100),
    here with the ids 1, 2 and 3. *)
Definition scenario_token (i : Z) (c : Coord) : Rust.Token :=
  Rust.set_coordinates L1Physical c (Rust.Token_new i).

Definition scenario_ops : list Engine.Op :=
  [Engine.OpAdd (scenario_token 1 (0, 0, 0)%Q);
   Engine.OpAdd (scenario_token 2 (3, 4, 0)%Q);
   Engine.OpAdd (scenario_token 3 (100, 100, 100)%Q)].

Definition scenario_grid : Engine.Grid :=
  Engine.populate scenario_ops (Engine.empty 10).

(** * Properties of the token storage *)

Lemma same_scalars_refl t : same_scalars t t.
Proof. by repeat split. Qed.

Lemma same_scalars_trans t1 t2 t3 :
  same_scalars t1 t2 -> same_scalars t2 t3 -> same_scalars t1 t3.
Proof.
  intros (?&?&?&?&?) (?&?&?&?&?). repeat split; congruence.
Qed.

Lemma set_coordinates_scalars layer x y z t r t' :
  set_coordinates layer x y z t = (r, t') -> same_scalars t t'.
Proof.
  unfold set_coordinates. intros Hs.
  destruct (negb _); [injection Hs as _ <-; apply same_scalars_refl|].
  destruct (coord_arg x), (coord_arg y), (coord_arg z);
    injection Hs as _ <-; by repeat split.
Qed.

Lemma copy_level_scalars token_data level t r t' :
  copy_level token_data level t = (r, t') -> same_scalars t t'.
Proof.
  unfold copy_level, bind, lift, ret. intros Hc.
  destruct (py_truthy _); [|injection Hc as _ <-; apply same_scalars_refl].
  destruct (py_get _ "x") as [x|]; [|injection Hc as _ <-; apply same_scalars_refl].
  destruct (py_get _ "y") as [y|]; [|injection Hc as _ <-; apply same_scalars_refl].
  destruct (py_get _ "z") as [z|]; [|injection Hc as _ <-; apply same_scalars_refl].
  destruct (_ || _).
  - by eapply set_coordinates_scalars.
  - injection Hc as _ <-. apply same_scalars_refl.
Qed.

Lemma copy_levels_scalars token_data levels t r t' :
  copy_levels token_data levels t = (r, t') -> same_scalars t t'.
Proof.
  revert t r t'. induction levels as [|level rest IH]; intros t r t' Hc.
  - injection Hc as _ <-. apply same_scalars_refl.
  - simpl in Hc. unfold bind in Hc.
    destruct (copy_level token_data level t) as [[[]|e] t1] eqn:Hl.
    + eapply same_scalars_trans; [by eapply copy_level_scalars|by eapply IH].
    + injection Hc as _ <-. by eapply copy_level_scalars.
Qed.

Lemma build_token_scalars token_id token_data token :
  TokenStorage.build_token token_id token_data = Return token ->
  id token = token_id /\
  weight token = dict_get token_data "weight" (PyFloat 0.5%float) /\
  field_radius token = dict_get token_data "field_radius" (PyFloat 1%float) /\
  field_strength token = dict_get token_data "field_strength" (PyFloat 1%float).
Proof.
  unfold TokenStorage.build_token. intros Hb.
  match type of Hb with
  | match copy_levels _ _ ?t0 with _ => _ end = _ =>
      destruct (copy_levels token_data (seq 0 8) t0) as [[[]|e] t1] eqn:Hc;
      [|discriminate]
  end.
  injection Hb as <-.
  apply copy_levels_scalars in Hc as (Hi & Hw & Hr & Hs & _).
  rewrite Hi, Hw, Hr, Hs.
  by destruct (py_truthy _).
Qed.

Section TokenStorageFacts.
Context `{TokenIds}.

(** How [create] ends when it returns. *)
Lemma create_returns token_data self token self' :
  TokenStorage.create token_data self = (Return token, self') ->
  TokenStorage.build_token (id token) token_data = Return token /\
  TokenStorage.consumed_local_id token_data self = Some (TokenStorage._next_local_id self) /\
  TokenStorage._storage self' = <[id token := token]> (TokenStorage._storage self) /\
  TokenStorage._next_local_id self' = TokenStorage._next_local_id self + 1.
Proof.
  unfold TokenStorage.create, TokenStorage.consumed_local_id. intros Hc.
  destruct (create_token_id _ _ _) as [token_id|]; [|discriminate]. simpl in Hc.
  destruct (TokenStorage.build_token token_id token_data) as [t|] eqn:Hb; [|discriminate].
  injection Hc as <- <-. simpl.
  apply build_token_scalars in Hb as Hid. destruct Hid as [-> _]. done.
Qed.

(** C8: a token created by [create] from a [token_data] dictionary without
    the keys [weight], [field_radius] and [field_strength] has weight 0.5,
    field_radius 1.0 and field_strength 1.0; it is the token stored under
    its id. *)
Theorem create_defaults token_data self token self' :
  token_data !! "weight" = None ->
  token_data !! "field_radius" = None ->
  token_data !! "field_strength" = None ->
  TokenStorage.create token_data self = (Return token, self') ->
  weight token = PyFloat 0.5%float /\
  field_radius token = PyFloat 1%float /\
  field_strength token = PyFloat 1%float /\
  TokenStorage.get (id token) self' = Some token.
Proof.
  intros Hw Hr Hs Hc.
  apply create_returns in Hc as (Hb & _ & Hst & _).
  apply build_token_scalars in Hb as (_ & -> & -> & ->).
  unfold dict_get, TokenStorage.get. rewrite Hw, Hr, Hs, Hst.
  by rewrite lookup_insert_eq.
Qed.

(** C9: [delete(token_id)] returns [True] exactly when [token_id] is in the
    storage; then [get(token_id)] is [None] afterwards and [count()] has
    dropped by one; when it returns [False] the storage is unchanged. *)
Theorem delete_spec token_id self :
  let '(b, self') := TokenStorage.delete token_id self in
  (b = true <-> is_Some (TokenStorage.get token_id self)) /\
  (b = true ->
     TokenStorage.get token_id self' = None /\
     TokenStorage.count self' = TokenStorage.count self - 1) /\
  (b = false -> self' = self).
Proof.
  unfold TokenStorage.delete, TokenStorage.get, TokenStorage.count.
  destruct (TokenStorage._storage self !! token_id) as [t|] eqn:Hl; simpl.
  - split_and!; [by split; eauto| |done].
    intros _. split; [apply lookup_delete_eq|].
    rewrite map_size_delete, Hl.
    assert (size (TokenStorage._storage self) <> 0%nat)
      by (intros Hz; apply map_size_empty_inv in Hz; by rewrite Hz in Hl).
    lia.
  - split_and!; [|done|done].
    split; [done|]. by intros [? ?].
Qed.

End TokenStorageFacts.

Section TokenCounterFacts.
Context `{TokenIds}.

Lemma create_counter token_data self :
  match TokenStorage.consumed_local_id token_data self with
  | Some l =>
      l = TokenStorage._next_local_id self /\
      TokenStorage._next_local_id (TokenStorage.create token_data self).2 = l + 1
  | None =>
      TokenStorage._next_local_id (TokenStorage.create token_data self).2
      = TokenStorage._next_local_id self
  end.
Proof.
  unfold TokenStorage.consumed_local_id, TokenStorage.create.
  destruct (create_token_id _ _ _) as [token_id|]; [|done]. simpl.
  by destruct (TokenStorage.build_token token_id token_data).
Qed.

Lemma update_counter token_id token_data self :
  TokenStorage._next_local_id (TokenStorage.update token_id token_data self).2
  = TokenStorage._next_local_id self.
Proof.
  unfold TokenStorage.update.
  destruct (TokenStorage._storage self !! token_id); [|done].
  destruct (copy_levels _ _ _) as [[] ?]; done.
Qed.

Lemma delete_counter token_id self :
  TokenStorage._next_local_id (TokenStorage.delete token_id self).2
  = TokenStorage._next_local_id self.
Proof.
  unfold TokenStorage.delete.
  by destruct (TokenStorage._storage self !! token_id).
Qed.

(** One operation other than [clear]: the counter never goes down, and a
    consumed local id is the old counter value, which the counter passes. *)
Lemma step_counter o self :
  TokenStorage.is_clear o = false ->
  TokenStorage._next_local_id self
    <= TokenStorage._next_local_id (TokenStorage.step o self) /\
  forall l, TokenStorage.consumes o self = Some l ->
    l = TokenStorage._next_local_id self /\
    TokenStorage._next_local_id (TokenStorage.step o self) = l + 1.
Proof.
  destruct o as [token_data|token_id token_data|token_id|]; simpl; [| | |done]; intros _.
  - pose proof (create_counter token_data self) as Hc.
    destruct (TokenStorage.consumed_local_id token_data self) as [l|].
    + destruct Hc as [-> Hn]. split; [lia|]. by intros ? [= <-].
    + split; [lia|done].
  - rewrite update_counter. split; [lia|done].
  - rewrite delete_counter. split; [lia|done].
Qed.

Lemma run_counter ops self :
  forallb (fun o => negb (TokenStorage.is_clear o)) ops = true ->
  TokenStorage._next_local_id self
    <= TokenStorage._next_local_id (TokenStorage.run ops self).2 /\
  StronglySorted Z.lt (TokenStorage.run ops self).1 /\
  Forall (fun l => TokenStorage._next_local_id self <= l
                   < TokenStorage._next_local_id (TokenStorage.run ops self).2)
         (TokenStorage.run ops self).1.
Proof.
  revert self. induction ops as [|o rest IH]; intros self Hops; simpl.
  - split; [lia|]. split; constructor.
  - simpl in Hops. apply andb_true_iff in Hops as [Ho Hrest].
    apply negb_true_iff in Ho.
    destruct (step_counter o self Ho) as [Hle Hcons].
    specialize (IH (TokenStorage.step o self) Hrest).
    destruct (TokenStorage.run rest (TokenStorage.step o self)) as [ids final].
    simpl in *. destruct IH as (Hle' & Hsorted & Hall).
    destruct (TokenStorage.consumes o self) as [l|]; simpl.
    + destruct (Hcons l eq_refl) as [-> Hnext].
      split; [lia|]. split.
      * constructor; [done|].
        eapply Forall_impl; [exact Hall|]. simpl. intros; lia.
      * constructor; [lia|].
        eapply Forall_impl; [exact Hall|]. simpl. intros; lia.
    + split; [lia|]. split; [done|].
      eapply Forall_impl; [exact Hall|]. simpl. intros; lia.
Qed.

(** The token ids the successful [create] calls return are packed from
    local ids the run consumed, in the same order. *)
Lemma allocated_packed ops self :
  exists ls,
    sublist ls (TokenStorage.run ops self).1 /\
    Forall2 (fun i l => exists e d, create_token_id l e d = Return i)
            (TokenStorage.allocated ops self) ls.
Proof.
  revert self. induction ops as [|o rest IH]; intros self; simpl.
  - exists []. split; constructor.
  - destruct (IH (TokenStorage.step o self)) as (ls & Hsub & Hall).
    destruct (TokenStorage.run rest (TokenStorage.step o self)) as [ids final].
    simpl in *.
    destruct o as [token_data|token_id token_data|token_id|]; simpl;
      try (exists ls; split; [done|done]).
    unfold TokenStorage.consumed_local_id, TokenStorage.create.
    unfold TokenStorage.step, TokenStorage.create in Hall.
    destruct (create_token_id _ _ _) as [token_id|] eqn:Hid; simpl in *.
    + destruct (TokenStorage.build_token token_id token_data) as [t|] eqn:Hb;
        simpl in *.
      * apply build_token_scalars in Hb as [-> _].
        exists (TokenStorage._next_local_id self :: ls).
        split; [by constructor|]. constructor; [|done]. by eexists _, _.
      * exists ls. split; [by constructor|done].
    + exists ls. split; [done|done].
Qed.

Lemma NoDup_packed (R : Z -> Z -> Prop) (xs ls : list Z) :
  (forall i l l', R i l -> R i l' -> l = l') ->
  Forall2 R xs ls -> NoDup ls -> NoDup xs.
Proof.
  intros Hinj Hall. induction Hall as [|i l xs ls Hil Hall IH]; intros Hnd.
  - constructor.
  - apply NoDup_cons in Hnd as [Hnin Hnd]. constructor; [|by apply IH].
    intros Hin. apply Hnin.
    destruct (list_elem_of_lookup_1 _ _ Hin) as [k Hk].
    destruct (Forall2_lookup_l _ _ _ _ _ Hall Hk) as (l' & Hl' & Hil').
    rewrite (Hinj i l l' Hil Hil'). by eapply list_elem_of_lookup_2.
Qed.

(** C6, as amended: over any sequence of [create], [update] and [delete]
    calls — no [clear] — and from any storage state, each [create] consumes
    a local id strictly greater than every local id consumed earlier in the
    sequence, so these are pairwise distinct; and if the packer never
    returns one token id for two local ids, the token ids the [create] calls
    of the sequence return are pairwise distinct.  [clear] sets the counter
    back to 1: a [create] that follows it consumes local id 1 again. *)
Theorem local_ids_increase_between_clears ops self :
  forallb (fun o => negb (TokenStorage.is_clear o)) ops = true ->
  StronglySorted Z.lt (TokenStorage.run ops self).1 /\
  NoDup (TokenStorage.run ops self).1 /\
  (packs_injectively -> NoDup (TokenStorage.allocated ops self)) /\
  (forall token_data l,
     TokenStorage.consumes (TokenStorage.OpCreate token_data)
       (TokenStorage.step TokenStorage.OpClear self) = Some l -> l = 1).
Proof.
  intros Hops. destruct (run_counter ops self Hops) as (_ & Hsorted & _).
  assert (NoDup (TokenStorage.run ops self).1) as Hnd.
  { clear Hops. induction Hsorted as [|l ids _ IH Hall]; constructor; [|done].
    intros Hin. rewrite Forall_forall in Hall. specialize (Hall l Hin). lia. }
  split; [done|]. split; [done|]. split.
  - intros Hinj. destruct (allocated_packed ops self) as (ls & Hsub & Hall).
    eapply NoDup_packed; [|exact Hall|by eapply sublist_NoDup].
    intros i l l' (e & d & Hl) (e' & d' & Hl'). by eapply Hinj.
  - intros token_data l. simpl. unfold TokenStorage.consumed_local_id. simpl.
    destruct (create_token_id _ _ _); [|done]. by intros [= <-].
Qed.

End TokenCounterFacts.

Lemma checked_ids_inject : packs_injectively (H := checked_ids).
Proof.
  intros l l' e e' d d' i. unfold create_token_id, checked_ids.
  destruct e as [| |e| |]; try discriminate.
  destruct d as [| |d| |]; try discriminate.
  destruct e' as [| |e'| |]; try discriminate.
  destruct d' as [| |d'| |]; try discriminate.
  repeat case_match; try discriminate.
  intros [= <-] [= Heq].
  repeat match goal with
         | Hx : _ && _ = true |- _ => apply andb_true_iff in Hx as [? ?]
         end.
  lia.
Qed.

(** C6 fails as stated: [create], [clear], [create] on a fresh storage
    consumes local id 1 twice and hands out the same token id twice, with a
    packer that never returns one id for two local ids. *)
Lemma local_ids_repeat_after_clear :
  let ops := [TokenStorage.OpCreate ∅; TokenStorage.OpClear; TokenStorage.OpCreate ∅] in
  let fresh := TokenStorage.__init__ TokenStorage.blank in
  ~ StronglySorted Z.lt (TokenStorage.run (H := sample_ids) ops fresh).1 /\
  ~ NoDup (TokenStorage.allocated (H := sample_ids) ops fresh) /\
  ~ NoDup (TokenStorage.allocated (H := checked_ids) ops fresh).
Proof.
  intros ops fresh.
  assert ((TokenStorage.run (H := sample_ids) ops fresh).1 = [1; 1]) as ->
    by reflexivity.
  assert (TokenStorage.allocated (H := sample_ids) ops fresh = [1; 1]) as ->
    by reflexivity.
  assert (TokenStorage.allocated (H := checked_ids) ops fresh = [1; 1]) as ->
    by reflexivity.
  split; [|split].
  - intros Hs. inversion Hs as [|? ? _ Hall].
    inversion Hall as [|? ? Hlt _]. lia.
  - intros Hn. inversion Hn as [|? ? Hnin _].
    apply Hnin. constructor.
  - intros Hn. inversion Hn as [|? ? Hnin _].
    apply Hnin. constructor.
Qed.

Lemma local_ids_increase_between_clears_witness :
  let ops := [TokenStorage.OpCreate ∅; TokenStorage.OpDelete 1;
              TokenStorage.OpCreate {[ "domain" := PyInt 2 ]};
              TokenStorage.OpCreate {[ "domain" := PyInt 99 ]};
              TokenStorage.OpCreate ∅] in
  let fresh := TokenStorage.__init__ TokenStorage.blank in
  (TokenStorage.run (H := checked_ids) ops fresh).1 = [1; 2; 3] /\
  TokenStorage.allocated (H := checked_ids) ops fresh
  = [1; 2 + 2 ^ 32 * 32; 3] /\
  StronglySorted Z.lt (TokenStorage.run (H := checked_ids) ops fresh).1 /\
  NoDup (TokenStorage.allocated (H := checked_ids) ops fresh).
Proof.
  split; [reflexivity|]. split; [reflexivity|].
  destruct (local_ids_increase_between_clears (H := checked_ids)
              [TokenStorage.OpCreate ∅; TokenStorage.OpDelete 1;
               TokenStorage.OpCreate {[ "domain" := PyInt 2 ]};
               TokenStorage.OpCreate {[ "domain" := PyInt 99 ]};
               TokenStorage.OpCreate ∅]
              (TokenStorage.__init__ TokenStorage.blank) eq_refl)
    as (Hsorted & _ & Hdistinct & _).
  split; [exact Hsorted|]. apply Hdistinct. exact checked_ids_inject.
Defined.

Lemma create_defaults_witness :
  let fresh := TokenStorage.__init__ TokenStorage.blank in
  let token := Token_new 1 in
  TokenStorage.create (H := sample_ids) ∅ fresh
    = (Return token, TokenStorage.mkStorage true {[ 1 := token ]} 2) /\
  weight token = PyFloat 0.5%float.
Proof.
  split; [reflexivity|].
  eapply (create_defaults (H := sample_ids) ∅
            (TokenStorage.__init__ TokenStorage.blank));
    reflexivity.
Defined.

(** * The singleton protocol of the token storage *)

Section SingletonFacts.
Context `{TokenIds}.

Lemma step_initialized o self :
  TokenStorage._initialized (TokenStorage.step o self)
  = TokenStorage._initialized self.
Proof.
  destruct o as [token_data|token_id token_data|token_id|]; simpl; [| | |done].
  - unfold TokenStorage.create.
    destruct (create_token_id _ _ _) as [token_id|]; [|done]. simpl.
    by destruct (TokenStorage.build_token token_id token_data).
  - unfold TokenStorage.update.
    destruct (TokenStorage._storage self !! token_id); [|done].
    by destruct (copy_levels _ _ _) as [[] ?].
  - unfold TokenStorage.delete.
    by destruct (TokenStorage._storage self !! token_id).
Qed.

(** On a world that satisfies the invariant and holds an instance, the
    constructor returns that instance and changes nothing. *)
Lemma construct_again w l :
  world_inv w -> TokenStorage.cls_instance w = Some l ->
  TokenStorage.construct w = (l, w).
Proof.
  unfold world_inv, TokenStorage.construct, TokenStorage.__new__.
  intros Hinv Hl. rewrite Hl in Hinv |- *. destruct Hinv as [(o & Ho & Hi) _].
  f_equal. destruct w as [hp ci ts]. unfold TokenStorage.at_loc. simpl in *.
  f_equal. apply alter_id. intros o' Ho'.
  assert (o' = o) as -> by congruence.
  unfold TokenStorage.__init__. by rewrite Hi.
Qed.

Lemma at_loc_inv l f w :
  (forall o, TokenStorage._initialized (f o) = TokenStorage._initialized o) ->
  world_inv w -> world_inv (TokenStorage.at_loc l f w).
Proof.
  unfold world_inv, TokenStorage.at_loc. simpl. intros Hf Hinv.
  destruct (TokenStorage.cls_instance w) as [l0|]; [|done].
  destruct Hinv as [(o & Ho & Hi) Hts]. split; [|done].
  destruct (decide (l = l0)) as [->|Hne].
  - exists (f o). rewrite lookup_alter_eq, Ho. split; [done|]. by rewrite Hf.
  - exists o. by rewrite lookup_alter_ne.
Qed.

(** The first construction establishes the invariant; later ones keep it. *)
Lemma construct_inv w :
  world_inv w ->
  world_inv (TokenStorage.construct w).2 /\
  TokenStorage.cls_instance (TokenStorage.construct w).2
  = Some (TokenStorage.construct w).1.
Proof.
  intros Hinv.
  destruct (TokenStorage.cls_instance w) as [l|] eqn:Hl.
  - by rewrite (construct_again w l).
  - unfold world_inv in Hinv. rewrite Hl in Hinv.
    unfold TokenStorage.construct, TokenStorage.__new__. rewrite Hl. simpl.
    split; [|done]. unfold world_inv. simpl. split; [|by left].
    eexists. rewrite lookup_alter_eq, lookup_insert_eq. simpl. done.
Qed.

Lemma get_memory_token_storage_inv w :
  world_inv w -> world_inv (TokenStorage.get_memory_token_storage w).2.
Proof.
  intros Hinv. unfold TokenStorage.get_memory_token_storage.
  destruct (TokenStorage._token_storage w) as [l|] eqn:Hts; [done|].
  destruct (construct_inv w Hinv) as [Hinv' Hcls].
  destruct (TokenStorage.construct w) as [l w']. simpl in *.
  unfold world_inv in *. simpl. rewrite Hcls in Hinv' |- *.
  destruct Hinv' as [Ho _]. split; [done|by right].
Qed.

Lemma cleanup_inv w :
  world_inv w -> world_inv (TokenStorage.cleanup_memory_storage w).
Proof.
  intros Hinv. unfold TokenStorage.cleanup_memory_storage.
  assert (world_inv
            match TokenStorage._token_storage w with
            | Some l => TokenStorage.at_loc l (fun self => (TokenStorage.clear self).2) w
            | None => w
            end) as Hinv'.
  { destruct (TokenStorage._token_storage w); [|done]. by apply at_loc_inv. }
  revert Hinv'. generalize (match TokenStorage._token_storage w with
            | Some l => TokenStorage.at_loc l (fun self => (TokenStorage.clear self).2) w
            | None => w
            end). intros w'. unfold world_inv. simpl.
  destruct (TokenStorage.cls_instance w'); [|done].
  intros [Ho _]. split; [done|by left].
Qed.

Lemma act_inv a w : world_inv w -> world_inv (TokenStorage.act a w).
Proof.
  destruct a as [| | |l o]; simpl; intros Hinv.
  - by apply construct_inv.
  - by apply get_memory_token_storage_inv.
  - by apply cleanup_inv.
  - apply at_loc_inv; [|done]. intros; apply step_initialized.
Qed.

Lemma act_instance a w l :
  world_inv w -> TokenStorage.cls_instance w = Some l ->
  TokenStorage.cls_instance (TokenStorage.act a w) = Some l.
Proof.
  intros Hinv Hl. destruct a as [| | |l' o]; simpl; [| | |done].
  - by rewrite (construct_again w l).
  - unfold TokenStorage.get_memory_token_storage.
    destruct (TokenStorage._token_storage w); [done|].
    by rewrite (construct_again w l).
  - unfold TokenStorage.cleanup_memory_storage. simpl.
    by destruct (TokenStorage._token_storage w).
Qed.

Lemma acts_inv l w : world_inv w -> world_inv (TokenStorage.acts l w).
Proof.
  revert w. induction l as [|a l IH]; intros w Hinv; [done|].
  simpl. apply IH. by apply act_inv.
Qed.

Lemma acts_instance acts w l :
  world_inv w -> TokenStorage.cls_instance w = Some l ->
  TokenStorage.cls_instance (TokenStorage.acts acts w) = Some l.
Proof.
  revert w. induction acts as [|a acts IH]; intros w Hinv Hl; [done|].
  simpl. apply IH; [by apply act_inv|by apply act_instance].
Qed.

(** C10: whatever the program did before the first construction of
    [InMemoryTokenStorage] and whatever it does after it, constructing the
    storage again — directly or through [get_memory_token_storage] — yields
    the reference of the first construction and leaves the object as it
    is: every token stays retrievable, [count()] and the local id counter
    keep their values. *)
Theorem second_construction_is_idempotent (before after : list TokenStorage.Action) :
  let first := TokenStorage.construct (TokenStorage.acts before TokenStorage.initial) in
  let w := TokenStorage.acts after first.2 in
  TokenStorage.construct w = (first.1, w) /\
  (TokenStorage.get_memory_token_storage w).1 = first.1 /\
  TokenStorage.deref first.1 (TokenStorage.get_memory_token_storage w).2
  = TokenStorage.deref first.1 w /\
  is_Some (TokenStorage.deref first.1 w).
Proof.
  intros first w.
  assert (world_inv (TokenStorage.acts before TokenStorage.initial)) as H0
    by (by apply acts_inv).
  destruct (construct_inv _ H0) as [H1 Hcls]. fold first in H1, Hcls.
  assert (world_inv w) as Hw by (by apply acts_inv).
  assert (TokenStorage.cls_instance w = Some first.1) as Hl
    by (by apply acts_instance).
  pose proof (construct_again w _ Hw Hl) as Hagain.
  split; [done|].
  unfold TokenStorage.get_memory_token_storage.
  pose proof Hw as Hw'. unfold world_inv in Hw'. rewrite Hl in Hw'.
  destruct Hw' as [(o & Ho & _) Hts].
  destruct (TokenStorage._token_storage w) as [l'|] eqn:Hg.
  - destruct Hts as [|[= ->]]; [done|]. simpl.
    split_and!; [done|done|]. unfold TokenStorage.deref. by rewrite Ho.
  - rewrite Hagain. simpl. split_and!; [done|done|].
    unfold TokenStorage.deref. by rewrite Ho.
Qed.

End SingletonFacts.

(** * Properties of the grid storage *)

Section GridStorageFacts.
Context `{GridEngine}.

Lemma lookup_grid_unknown grid_id (self : GridStorage.InMemoryGridStorage) :
  GridStorage._grids self !! grid_id = None ->
  GridStorage.lookup_grid grid_id self = None.
Proof. unfold GridStorage.lookup_grid. by intros ->. Qed.

(** C2, as amended: for a grid id that is not in the storage — in
    particular the id [delete_grid] has just removed — [find_neighbors] and
    [range_query] return the empty list, [calculate_field_influence] and
    [calculate_density] return 0.0, [remove_token] returns [False], none
    of them raising or changing the storage; [add_token] returns [False]
    when the engine bindings are available, and raises [RuntimeError] when
    they are not. *)
Theorem unknown_grid_is_safe (GRID_AVAILABLE : bool) grid_id
    (self : GridStorage.InMemoryGridStorage) :
  GridStorage._grids self !! grid_id = None ->
  (forall token_id space radius max_results,
     GridStorage.find_neighbors grid_id token_id space radius max_results self
     = Return []) /\
  (forall space x y z radius,
     GridStorage.range_query grid_id space x y z radius self = Return [] /\
     GridStorage.calculate_field_influence grid_id space x y z radius self
     = Return 0%Q /\
     GridStorage.calculate_density grid_id space x y z radius self
     = Return 0%Q) /\
  (forall token_id,
     GridStorage.remove_token grid_id token_id self = (Return false, self)) /\
  (forall token,
     GridStorage.add_token GRID_AVAILABLE grid_id token self
     = (if GRID_AVAILABLE then (Return false, self)
        else (Raise (RuntimeError "Grid not available."), self))) /\
  (forall other,
     (GridStorage.delete_grid other self).1 = true ->
     GridStorage._grids (GridStorage.delete_grid other self).2 !! other = None).
Proof.
  intros Hg. pose proof (lookup_grid_unknown _ _ Hg) as Hl.
  unfold GridStorage.find_neighbors, GridStorage.range_query,
    GridStorage.calculate_field_influence, GridStorage.calculate_density,
    GridStorage.remove_token, GridStorage.add_token.
  rewrite Hl. split_and!; try done.
  - by destruct GRID_AVAILABLE.
  - intros other. unfold GridStorage.delete_grid.
    destruct (GridStorage._grids self !! other) eqn:Ho; [|done].
    intros _. apply lookup_delete_eq.
Qed.

(** C4, as amended: [create_grid] knows no cap.  With the bindings
    available and the engine building the grid, it returns the next id and
    stores the grid under it, however many grids the storage holds; what it
    does never depends on that number.  A cap is the caller's business. *)
Theorem create_grid_has_no_cap config (self : GridStorage.InMemoryGridStorage) grid :
  Grid_new (GridStorage.make_config config) = Return grid ->
  GridStorage.create_grid true config self
  = (Return (GridStorage._next_grid_id self),
     GridStorage.mkStorage
       (<[GridStorage._next_grid_id self := grid]> (GridStorage._grids self))
       (GridStorage._next_grid_id self + 1)) /\
  forall GRID_AVAILABLE (other : GridStorage.InMemoryGridStorage),
    is_return (GridStorage.create_grid GRID_AVAILABLE config other).1
    = is_return (GridStorage.create_grid GRID_AVAILABLE config self).1.
Proof.
  intros Hnew. unfold GridStorage.create_grid. rewrite Hnew. split; [done|].
  by intros [] other.
Qed.

Lemma step_next_grid_id GRID_AVAILABLE o (self : GridStorage.InMemoryGridStorage) :
  match GridStorage.created GRID_AVAILABLE o self with
  | Some g =>
      g = GridStorage._next_grid_id self /\
      GridStorage._next_grid_id (GridStorage.step GRID_AVAILABLE o self) = g + 1
  | None =>
      GridStorage._next_grid_id (GridStorage.step GRID_AVAILABLE o self)
      = GridStorage._next_grid_id self
  end.
Proof.
  destruct o as [config|grid_id|grid_id token|grid_id token_id]; simpl.
  - unfold GridStorage.create_grid.
    destruct GRID_AVAILABLE; simpl; [|done].
    by destruct (Grid_new _).
  - unfold GridStorage.delete_grid.
    by destruct (GridStorage._grids self !! grid_id).
  - unfold GridStorage.add_token.
    destruct GRID_AVAILABLE; simpl; [|done].
    destruct (GridStorage.lookup_grid grid_id self); [|done].
    by destruct (GridStorage.to_rust_token token).
  - unfold GridStorage.remove_token.
    destruct (GridStorage.lookup_grid grid_id self) as [grid|]; [|done].
    by destruct (Grid_remove token_id grid).
Qed.

Lemma run_grid_ids GRID_AVAILABLE ops (self : GridStorage.InMemoryGridStorage) :
  let ids := (GridStorage.run GRID_AVAILABLE ops self).1 in
  ids = seqZ (GridStorage._next_grid_id self) (Z.of_nat (length ids)) /\
  GridStorage._next_grid_id (GridStorage.run GRID_AVAILABLE ops self).2
  = GridStorage._next_grid_id self + Z.of_nat (length ids).
Proof.
  revert self. induction ops as [|o rest IH]; intros self; simpl.
  - split; [done|lia].
  - specialize (IH (GridStorage.step GRID_AVAILABLE o self)).
    pose proof (step_next_grid_id GRID_AVAILABLE o self) as Hstep.
    destruct (GridStorage.run GRID_AVAILABLE rest _) as [ids final].
    simpl in *. destruct IH as [Hids Hnext].
    destruct (GridStorage.created GRID_AVAILABLE o self) as [g|]; simpl.
    + destruct Hstep as [-> Hs]. rewrite Hs in Hids, Hnext. split; [|lia].
      rewrite Nat2Z.inj_succ, seqZ_cons by lia.
      f_equal. rewrite Z.pred_succ. by rewrite <- Z.add_1_r.
    + rewrite Hstep in Hids, Hnext. done.
Qed.

Lemma seqZ_sorted m n : StronglySorted Z.lt (seqZ m n).
Proof.
  destruct (decide (n <= 0)) as [Hn|Hn]; [rewrite seqZ_nil by done; constructor|].
  rewrite <- (Z2Nat.id n) by lia. generalize (Z.to_nat n) as k. clear Hn.
  intros k. revert m. induction k as [|k IH]; intros m.
  - constructor.
  - rewrite Nat2Z.inj_succ, seqZ_cons by lia. constructor.
    + rewrite Z.pred_succ. rewrite <- Z.add_1_r. apply IH.
    + apply Forall_forall. intros x Hx. apply elem_of_seqZ in Hx. lia.
Qed.

(** C5: on a freshly initialised [InMemoryGridStorage], whatever other
    calls come in between, the n-th [create_grid] call that returns yields
    the id n; the ids returned are therefore strictly increasing, and none
    is handed out twice, [delete_grid] or not. *)
Theorem grid_ids_are_sequential GRID_AVAILABLE (ops : list GridStorage.Op) :
  let ids := (GridStorage.run GRID_AVAILABLE ops GridStorage.fresh_storage).1 in
  ids = seqZ 1 (Z.of_nat (length ids)) /\
  (forall n, (n < length ids)%nat -> ids !! n = Some (Z.of_nat n + 1)) /\
  StronglySorted Z.lt ids /\
  NoDup ids.
Proof.
  intros ids.
  destruct (run_grid_ids GRID_AVAILABLE ops GridStorage.fresh_storage) as [Hids _].
  fold ids in Hids. simpl in Hids.
  split; [done|]. split_and!.
  - intros n Hn. rewrite Hids. rewrite lookup_seqZ. split; lia.
  - rewrite Hids. apply seqZ_sorted.
  - rewrite Hids. apply NoDup_seqZ.
Qed.

Lemma elem_of_list_grids g (self : GridStorage.InMemoryGridStorage) :
  g ∈ GridStorage.list_grids self <-> is_Some (GridStorage._grids self !! g).
Proof.
  unfold GridStorage.list_grids. rewrite list_elem_of_fmap. split.
  - intros ([g' grid] & -> & Hin). apply elem_of_map_to_list in Hin. eauto.
  - intros [grid Hgrid]. exists (g, grid). split; [done|].
    by apply elem_of_map_to_list.
Qed.

(** C7: [delete_grid(g)] returns [True] exactly when [g] is in the storage.
    Then [get_grid(g)] is [None] afterwards and [list_grids()] no longer has
    [g], while every other id is listed as before and bound to the same
    grid.  When it returns [False] the storage is unchanged. *)
Theorem delete_grid_spec g (self : GridStorage.InMemoryGridStorage) :
  let '(b, self') := GridStorage.delete_grid g self in
  (b = true <-> is_Some (GridStorage.get_grid g self)) /\
  (b = true ->
     GridStorage.get_grid g self' = None /\
     (g ∉ GridStorage.list_grids self') /\
     forall g', g' <> g ->
       GridStorage.get_grid g' self' = GridStorage.get_grid g' self /\
       (g' ∈ GridStorage.list_grids self' <-> g' ∈ GridStorage.list_grids self)) /\
  (b = false -> self' = self).
Proof.
  unfold GridStorage.delete_grid, GridStorage.get_grid.
  destruct (GridStorage._grids self !! g) as [grid|] eqn:Hg.
  - split_and!; [by split; eauto| |done].
    intros _. split_and!.
    + apply lookup_delete_eq.
    + rewrite elem_of_list_grids. simpl. rewrite lookup_delete_eq.
      by intros [? ?].
    + intros g' Hne. simpl. rewrite !elem_of_list_grids. simpl.
      by rewrite lookup_delete_ne.
  - split_and!; [|done|done]. split; [done|]. by intros [? ?].
Qed.

End GridStorageFacts.

(** ** Crossing from the Python token to the engine token *)






Section AddTokenFacts.
Context `{GridEngine}.


End AddTokenFacts.

(** ** The grid storage on concrete inputs *)

(** C2 fails as stated: without the engine bindings, [add_token] on an
    unknown grid id raises instead of returning [False]. *)
Lemma add_token_raises_without_bindings :
  let self := GridStorage.fresh_storage (H := spec_engine) in
  GridStorage._grids self !! 1 = None /\
  (GridStorage.add_token false 1 (Token_new 7) self).1
  = Raise (RuntimeError "Grid not available.") /\
  (GridStorage.add_token false 1 (Token_new 7) self).1 <> Return false.
Proof. split; [reflexivity|]. split; [reflexivity|discriminate]. Qed.

Lemma unknown_grid_is_safe_witness :
  let self := GridStorage.fresh_storage (H := spec_engine) in
  GridStorage._grids self !! 1 = None /\
  GridStorage.find_neighbors 1 2 0 5 10 self = Return [] /\
  GridStorage.add_token true 1 (Token_new 7) self = (Return false, self).
Proof.
  split; [reflexivity|].
  pose proof (unknown_grid_is_safe (H := spec_engine) true 1
                GridStorage.fresh_storage eq_refl) as (Hfind & _ & _ & Hadd & _).
  split; [exact (Hfind 2 0 5%Q 10)|exact (Hadd (Token_new 7))].
Defined.

(** C4 fails as stated: with a cap of one grid and one grid held,
    [create_grid] returns a second id and the storage holds two grids. *)
Lemma create_grid_ignores_cap :
  let cap := 1%nat in
  let self := (GridStorage.create_grid (H := spec_engine) true None
                 GridStorage.fresh_storage).2 in
  (cap <= size (GridStorage._grids self))%nat /\
  (GridStorage.create_grid true None self).1 = Return 2 /\
  size (GridStorage._grids (GridStorage.create_grid true None self).2) = 2%nat.
Proof. vm_compute. split; [lia|]. split; reflexivity. Qed.

Lemma create_grid_has_no_cap_witness :
  let self := GridStorage.fresh_storage (H := spec_engine) in
  @Grid_new spec_engine (GridStorage.make_config None) = Return (Engine.empty 10) /\
  GridStorage.create_grid true None self
  = (Return 1, GridStorage.mkStorage {[ 1 := Engine.empty 10 ]} 2).
Proof.
  split; [reflexivity|].
  exact (proj1 (create_grid_has_no_cap (H := spec_engine) None
                  GridStorage.fresh_storage (Engine.empty 10) eq_refl)).
Defined.



(** * Properties of the grid engine *)

(** ** Bucket indices *)

#[local] Set Warnings "-clear-no-such-hyp".

Lemma bucket_insert (b : Q) (j : Z) (c : Coord) (k : Engine.BucketKey)
    (ix : Engine.BucketIndex) (i : Z) :
  i ∈ Engine.bucket k (Engine.insert b j c ix) <->
  (i = j /\ k = Engine.bucket_key b c) \/ i ∈ Engine.bucket k ix.
Proof.
  unfold Engine.insert, Engine.bucket.
  destruct (decide (k = Engine.bucket_key b c)) as [->|Hne].
  - rewrite lookup_insert_eq. simpl. rewrite elem_of_union, elem_of_singleton.
    intuition.
  - rewrite lookup_insert_ne by done. intuition.
Qed.

Lemma bucket_remove (b : Q) (j : Z) (c : Coord) (k : Engine.BucketKey)
    (ix : Engine.BucketIndex) (i : Z) :
  i ∈ Engine.bucket k (Engine.remove b j c ix) <->
  i ∈ Engine.bucket k ix /\ ~ (i = j /\ k = Engine.bucket_key b c).
Proof.
  unfold Engine.remove, Engine.bucket.
  destruct (ix !! Engine.bucket_key b c) as [s|] eqn:Hs.
  - case_decide as Hempty.
    + destruct (decide (k = Engine.bucket_key b c)) as [->|Hne].
      * rewrite lookup_delete_eq, Hs. simpl.
        split; [set_solver|]. intros [Hin Hn]. set_solver.
      * rewrite lookup_delete_ne by done. intuition.
    + destruct (decide (k = Engine.bucket_key b c)) as [->|Hne].
      * rewrite lookup_insert_eq, Hs. simpl. set_solver.
      * rewrite lookup_insert_ne by done. intuition.
  - destruct (decide (k = Engine.bucket_key b c)) as [->|Hne].
    + rewrite Hs. simpl. set_solver.
    + intuition.
Qed.

Lemma bucket_index_layer (b : Q) (t : Rust.Token) (l : nat) (k : Engine.BucketKey)
    (ix : Engine.BucketIndex) (i : Z) :
  i ∈ Engine.bucket k (Engine.index_layer b t l ix) <->
  (i = Rust.id t /\
   exists c, Rust.get_coordinates l t = Some c /\ k = Engine.bucket_key b c) \/
  i ∈ Engine.bucket k ix.
Proof.
  unfold Engine.index_layer.
  destruct (Rust.get_coordinates l t) as [c|].
  - rewrite bucket_insert. split.
    + intros [[-> ->]|Hin]; [left; eauto|by right].
    + intros [[-> (c' & [= <-] & ->)]|Hin]; [by left|by right].
  - split; [by right|]. by intros [[_ (c & Hc & _)]|Hin].
Qed.

Lemma bucket_unindex_layer_ne (b : Q) (t : Rust.Token) (l : nat) (k : Engine.BucketKey)
    (ix : Engine.BucketIndex) (i : Z) :
  i <> Rust.id t ->
  i ∈ Engine.bucket k ix ->
  i ∈ Engine.bucket k (Engine.unindex_layer b t l ix).
Proof.
  intros Hne Hin. unfold Engine.unindex_layer.
  destruct (Rust.get_coordinates l t) as [c|]; [|done].
  apply bucket_remove. split; [done|]. by intros [? _].
Qed.

Lemma lookup_imap_default (f : nat -> Engine.BucketIndex -> Engine.BucketIndex)
    (ls : list Engine.BucketIndex) (l : nat) :
  (l < length ls)%nat ->
  default ∅ (imap f ls !! l) = f l (default ∅ (ls !! l)).
Proof.
  intros Hl. rewrite list_lookup_imap.
  destruct (lookup_lt_is_Some_2 _ _ Hl) as [ix ->]. done.
Qed.

(** ** Index consistency *)

Lemma empty_consistent b : Engine.consistent (Engine.empty b).
Proof.
  unfold Engine.consistent, Engine.coordinate_of. simpl.
  split; [done|]. split; [by intros i t; rewrite lookup_empty|].
  intros i l c _. by rewrite lookup_empty.
Qed.

Lemma add_consistent t g : Engine.consistent g -> Engine.consistent (Engine.add t g).
Proof.
  intros (Hlen & Hkey & Hix). unfold Engine.consistent, Engine.add. simpl.
  split_and!.
  - rewrite length_imap. by destruct (Engine.tokens g !! Rust.id t); rewrite ?length_imap.
  - intros i t'. rewrite lookup_insert. case_decide; [by intros [= <-]|apply Hkey].
  - intros i l c Hl. unfold Engine.coordinate_of, Engine.layer_index. simpl.
    rewrite lookup_imap_default
      by (by destruct (Engine.tokens g !! Rust.id t); rewrite ?length_imap, Hlen).
    rewrite lookup_insert. case_decide as Hi.
    + subst i. intros Hc. apply bucket_index_layer. left. eauto.
    + intros Hc. apply bucket_index_layer. right.
      specialize (Hix i l c Hl). unfold Engine.coordinate_of in Hix.
      specialize (Hix Hc). unfold Engine.layer_index in Hix.
      destruct (Engine.tokens g !! Rust.id t) as [old|] eqn:Hold; [|done].
      rewrite lookup_imap_default by (by rewrite Hlen).
      apply bucket_unindex_layer_ne; [|done].
      rewrite (Hkey _ _ Hold). congruence.
Qed.

Lemma remove_token_consistent token_id g :
  Engine.consistent g -> Engine.consistent (Engine.remove_token token_id g).2.
Proof.
  intros (Hlen & Hkey & Hix). unfold Engine.remove_token.
  destruct (Engine.tokens g !! token_id) as [old|] eqn:Hold; [|done].
  unfold Engine.consistent. simpl. split_and!.
  - by rewrite length_imap.
  - intros i t. rewrite lookup_delete. case_decide; [done|apply Hkey].
  - intros i l c Hl. unfold Engine.coordinate_of, Engine.layer_index. simpl.
    rewrite lookup_imap_default by (by rewrite Hlen).
    rewrite lookup_delete. case_decide as Hi; [done|].
    intros Hc. apply bucket_unindex_layer_ne.
    + rewrite (Hkey _ _ Hold). congruence.
    + apply (Hix i l c Hl). unfold Engine.coordinate_of. exact Hc.
Qed.

Lemma populate_consistent ops g :
  Engine.consistent g -> Engine.consistent (Engine.populate ops g).
Proof.
  revert g. induction ops as [|o ops IH]; intros g Hg; [done|].
  simpl. apply IH. destruct o as [t|token_id]; simpl.
  - by apply add_consistent.
  - by apply remove_token_consistent.
Qed.

Lemma populate_bucket_size ops g :
  Engine.grid_bucket_size (Engine.populate ops g) = Engine.grid_bucket_size g.
Proof.
  revert g. induction ops as [|o ops IH]; intros g; [done|].
  simpl. rewrite IH. destruct o as [t|token_id]; simpl; [done|].
  unfold Engine.remove_token. by destruct (Engine.tokens g !! token_id).
Qed.

(** ** The coarse pass loses nothing *)

Lemma Qsquare_nonneg (q : Q) : (0 <= q * q)%Q.
Proof. destruct q as [n d]. unfold Qle, Qmult. simpl. nia. Qed.

Lemma axis_bound (x xi r rest : Q) :
  (0 <= r)%Q -> (0 <= rest)%Q ->
  ((xi - x) * (xi - x) + rest <= r * r)%Q ->
  (x - r <= xi)%Q /\ (xi <= x + r)%Q.
Proof. intros Hr Hrest Hd. split; nra. Qed.

Lemma Qfloor_div_mono (b x y : Q) :
  (0 < b)%Q -> (x <= y)%Q -> Qfloor (x / b) <= Qfloor (y / b).
Proof.
  intros Hb Hxy. apply Qfloor_resp_le. unfold Qdiv.
  apply Qmult_le_compat_r; [done|]. apply Qinv_le_0_compat. lra.
Qed.

Lemma elem_of_range (lo hi k : Z) : k ∈ Engine.range lo hi <-> lo <= k <= hi.
Proof. unfold Engine.range. rewrite elem_of_seqZ. lia. Qed.

Lemma elem_of_cube (xs ys zs : list Z) (k : Engine.BucketKey) :
  k ∈ flat_map (fun kx =>
        flat_map (fun ky => List.map (fun kz => (kx, ky, kz)) zs) ys) xs <->
  k.1.1 ∈ xs /\ k.1.2 ∈ ys /\ k.2 ∈ zs.
Proof.
  destruct k as [[kx ky] kz]. cbn [fst snd].
  rewrite !list_elem_of_In, in_flat_map. split.
  - intros (kx' & Hx & Hin). apply in_flat_map in Hin as (ky' & Hy & Hin).
    apply in_map_iff in Hin as (kz' & [= <- <- <-] & Hz). done.
  - intros (Hx & Hy & Hz). exists kx. split; [done|].
    apply in_flat_map. exists ky. split; [done|].
    apply in_map_iff. by exists kz.
Qed.

Lemma elem_of_buckets_in_radius (b : Q) (c : Coord) (radius : Q) (k : Engine.BucketKey) :
  k ∈ Engine.buckets_in_radius b c radius <->
  Qfloor ((c.1.1 - radius) / b) <= k.1.1 <= Qfloor ((c.1.1 + radius) / b) /\
  Qfloor ((c.1.2 - radius) / b) <= k.1.2 <= Qfloor ((c.1.2 + radius) / b) /\
  Qfloor ((c.2 - radius) / b) <= k.2 <= Qfloor ((c.2 + radius) / b).
Proof.
  destruct c as [[x y] z]. cbn [fst snd].
  unfold Engine.buckets_in_radius. by rewrite elem_of_cube, !elem_of_range.
Qed.

(** A point within [radius] of [c] lies in one of the buckets around [c]. *)
Lemma within_buckets_in_radius (b : Q) (c ci : Coord) (radius : Q) :
  (0 < b)%Q -> (0 <= radius)%Q ->
  Engine.within (Engine.distance c ci) radius = true ->
  Engine.bucket_key b ci ∈ Engine.buckets_in_radius b c radius.
Proof.
  intros Hb Hr Hw. apply elem_of_buckets_in_radius.
  destruct c as [[x y] z], ci as [[xi yi] zi].
  unfold Engine.within, Engine.distance in Hw. cbn [radicand] in Hw.
  apply Qle_bool_iff in Hw. cbn [fst snd Engine.bucket_key].
  pose proof (Qsquare_nonneg (xi - x)).
  pose proof (Qsquare_nonneg (yi - y)).
  pose proof (Qsquare_nonneg (zi - z)).
  destruct (axis_bound x xi radius ((yi - y) * (yi - y) + (zi - z) * (zi - z))) as [? ?];
    [done|lra|lra|].
  destruct (axis_bound y yi radius ((xi - x) * (xi - x) + (zi - z) * (zi - z))) as [? ?];
    [done|lra|lra|].
  destruct (axis_bound z zi radius ((xi - x) * (xi - x) + (yi - y) * (yi - y))) as [? ?];
    [done|lra|lra|].
  split_and!; by apply Qfloor_div_mono.
Qed.

(** ** The fine pass *)

(** The comparison the sort uses decides the order of the results. *)
Lemma neighbor_leb_precedes (a b : Z * Distance) :
  Is_true (Engine.neighbor_leb a b) <-> Engine.precedes a b.
Proof.
  unfold Engine.neighbor_leb, Engine.precedes.
  destruct (radicand a.2 ?= radicand b.2)%Q eqn:Hc.
  - apply Qeq_alt in Hc. rewrite Is_true_true, Z.leb_le.
    split; [by right|]. intros [Hlt|[_ Hle]]; [lra|done].
  - apply Qlt_alt in Hc. split; [by left|done].
  - apply Qgt_alt in Hc. split; [done|]. intros [Hlt|[Heq _]]; lra.
Qed.

Lemma precedes_total (a b : Z * Distance) :
  Engine.precedes a b \/ Engine.precedes b a.
Proof.
  unfold Engine.precedes.
  destruct (Q_dec (radicand a.2) (radicand b.2)) as [[Hlt|Hgt]|Heq].
  - left. by left.
  - right. by left.
  - destruct (Z.le_ge_cases a.1 b.1).
    + left. right. done.
    + right. right. split; [lra|done].
Qed.

Lemma precedes_trans (a b c : Z * Distance) :
  Engine.precedes a b -> Engine.precedes b c -> Engine.precedes a c.
Proof.
  unfold Engine.precedes.
  intros [Hab|[Hab Hab']] [Hbc|[Hbc Hbc']].
  - left. lra.
  - left. lra.
  - left. lra.
  - right. split; [lra|lia].
Qed.

Lemma neighbor_leb_total : Total (fun a b => Is_true (Engine.neighbor_leb a b)).
Proof.
  intros a b. rewrite !neighbor_leb_precedes. apply precedes_total.
Qed.

Lemma neighbor_leb_trans :
  Transitive (fun a b => Is_true (Engine.neighbor_leb a b)).
Proof.
  intros a b c. rewrite !neighbor_leb_precedes. apply precedes_trans.
Qed.

(** What the fine pass keeps: the candidates with a coordinate in the
    layer, each with its exact distance, that lie within the radius. *)
Lemma elem_of_ranked l c radius cands g i d :
  (i, d) ∈ Engine.ranked l c radius cands g <->
  i ∈ cands /\
  exists ci, Engine.coordinate_of i l g = Some ci /\
             d = Engine.distance c ci /\
             Engine.within d radius = true.
Proof.
  unfold Engine.ranked. rewrite merge_sort_Permutation.
  rewrite list_elem_of_filter, list_elem_of_omap. cbn [snd].
  rewrite Is_true_true. split.
  - intros (Hw & j & Hj & Hs).
    destruct (Engine.coordinate_of j l g) as [ci|] eqn:Hci; [|done].
    injection Hs as <- <-. split; [done|]. by exists ci.
  - intros (Hi & ci & Hci & -> & Hw). split; [done|].
    exists i. split; [done|]. by rewrite Hci.
Qed.

Lemma ranked_sorted l c radius cands g :
  StronglySorted Engine.precedes (Engine.ranked l c radius cands g).
Proof.
  unfold Engine.ranked.
  match goal with
  | |- StronglySorted _ (merge_sort ?R ?k) =>
      pose proof (@StronglySorted_merge_sort _ R _
                    neighbor_leb_trans neighbor_leb_total k) as Hs
  end.
  induction Hs as [|a rest _ IH Hall]; constructor; [done|].
  eapply Forall_impl; [exact Hall|]. intros b. apply neighbor_leb_precedes.
Qed.

Lemma scored_sublist l c g (cands : list Z) :
  sublist (omap (fun i => match Engine.coordinate_of i l g with
                          | Some ci => Some (i, Engine.distance c ci)
                          | None => None
                          end) cands).*1 cands.
Proof.
  induction cands as [|i cands IH]; [done|]. cbn [omap list_omap].
  destruct (Engine.coordinate_of i l g); cbn; by constructor.
Qed.

Lemma ranked_NoDup l c radius cands g :
  NoDup cands -> NoDup (Engine.ranked l c radius cands g).*1.
Proof.
  intros Hnd. unfold Engine.ranked. rewrite merge_sort_Permutation.
  apply (sublist_NoDup _ cands); [done|].
  etrans; [apply fmap_sublist, sublist_filter|]. apply scored_sublist.
Qed.

(** The coarse pass under index consistency: a token within the radius is
    a candidate. *)
Lemma elem_of_candidates l c ci radius g i :
  Engine.consistent g -> (l < NUM_LAYERS)%nat ->
  (0 < Engine.grid_bucket_size g)%Q -> (0 <= radius)%Q ->
  Engine.coordinate_of i l g = Some ci ->
  Engine.within (Engine.distance c ci) radius = true ->
  i ∈ Engine.candidates l c radius g.
Proof.
  intros (_ & _ & Hix) Hl Hb Hr Hci Hw. unfold Engine.candidates.
  rewrite elem_of_elements, elem_of_union_list.
  exists (Engine.bucket (Engine.bucket_key (Engine.grid_bucket_size g) ci)
            (Engine.layer_index l g)).
  split; [|by eapply Hix].
  apply list_elem_of_In.
  apply (in_map (fun k => Engine.bucket k (Engine.layer_index l g))).
  apply list_elem_of_In. by apply within_buckets_in_radius.
Qed.

Lemma populate_ready ops b :
  Engine.consistent (Engine.populate ops (Engine.empty b)) /\
  Engine.grid_bucket_size (Engine.populate ops (Engine.empty b)) = b.
Proof.
  split; [apply populate_consistent, empty_consistent|].
  by rewrite populate_bucket_size.
Qed.

(** C1, for the engine modelled from the specification: in a grid of
    positive bucket size populated by any sequence of [add] and [remove]
    calls, with a query token that has a coordinate in a valid layer and a
    radius that is not negative, [find_neighbors] of the storage returns the
    first [max_results] entries of a list that holds exactly the pairs
    (id, exact distance from the query token's coordinate) of the tokens
    other than the query token whose coordinate in the layer lies within the
    radius, bound included, each token once, in ascending order of distance
    and of id at equal distance.  The grid object counts as true: it holds
    the query token. *)
Theorem find_neighbors_exact (truth : Engine.Grid -> bool)
    (field density : Z -> Q -> Q -> Q -> Q -> Engine.Grid -> Outcome Q)
    (self : @GridStorage.InMemoryGridStorage (Engine.engine truth field density))
    (ops : list Engine.Op) (b : Q)
    (grid_id token_id space : Z) (radius : Q) (max_results : Z) (c : Coord) :
  let g := Engine.populate ops (Engine.empty b) in
  let L := Z.to_nat space in
  (forall g', Engine.len g' <> 0%nat -> truth g' = true) ->
  (0 < b)%Q ->
  GridStorage._grids self !! grid_id = Some g ->
  0 <= space < 8 ->
  (0 <= radius)%Q ->
  Engine.coordinate_of token_id L g = Some c ->
  exists found,
    GridStorage.find_neighbors grid_id token_id space radius max_results self
    = Return (take (Z.to_nat max_results) found) /\
    StronglySorted Engine.precedes found /\
    NoDup found.*1 /\
    forall i d,
      (i, d) ∈ found <->
      i <> token_id /\
      exists ci, Engine.coordinate_of i L g = Some ci /\
                 d = Engine.distance c ci /\
                 (radicand d <= radius * radius)%Q.
Proof.
  intros g L Htruth Hb Hg Hspace Hr Hc.
  destruct (populate_ready ops b) as [Hcons Hsize]. fold g in Hcons, Hsize.
  set (cands := filter (fun i => i ≠ token_id) (Engine.candidates L c radius g)).
  exists (Engine.ranked L c radius cands g).
  split_and!.
  - unfold GridStorage.find_neighbors, GridStorage.lookup_grid.
    cbn [Grid Engine.engine] in *. rewrite Hg.
    assert (truth g = true) as Ht.
    { apply Htruth. unfold Engine.len. unfold Engine.coordinate_of in Hc.
      destruct (Engine.tokens g !! token_id) eqn:Ht; [|done].
      intros Hz. apply map_size_empty_iff in Hz. by rewrite Hz in Ht. }
    cbn [Grid_bool Engine.engine]. rewrite Ht.
    cbn [Grid_find_neighbors Engine.engine].
    unfold Engine.find_neighbors, Engine.check_layer.
    assert ((0 <=? space) && (space <? 8) = true) as -> by lia.
    assert (Qle_bool 0 radius = true) as -> by by apply Qle_bool_iff.
    fold L. unfold Engine.coordinate_of in Hc.
    destruct (Engine.tokens g !! token_id) as [t|]; [|done].
    by rewrite Hc.
  - apply ranked_sorted.
  - apply ranked_NoDup. apply NoDup_filter, NoDup_elements.
  - intros i d. rewrite elem_of_ranked. unfold cands.
    rewrite list_elem_of_filter. split.
    + intros ([Hne _] & ci & Hci & -> & Hw). split; [done|].
      exists ci. split; [done|]. split; [done|]. by apply Qle_bool_iff.
    + intros (Hne & ci & Hci & -> & Hw).
      apply Qle_bool_iff in Hw. split.
      * split; [done|]. eapply elem_of_candidates; try done.
        -- unfold L, NUM_LAYERS. lia.
        -- by rewrite Hsize.
      * by exists ci.
Qed.

Lemma find_neighbors_exact_witness :
  let self := GridStorage.mkStorage (H := sized_engine) {[ 1 := scenario_grid ]} 2 in
  GridStorage.find_neighbors 1 1 0 5 10 self = Return [(2, Sqrt 25)] /\
  GridStorage.find_neighbors 1 1 0 (49 # 10) 10 self = Return [] /\
  GridStorage.find_neighbors 1 1 0 200 1 self = Return [(2, Sqrt 25)] /\
  exists found,
    GridStorage.find_neighbors 1 1 0 200 1 self = Return (take 1 found) /\
    ((3, Sqrt 30000) ∈ found <->
     3 <> 1 /\
     exists ci, Engine.coordinate_of 3 0 scenario_grid = Some ci /\
                Sqrt 30000 = Engine.distance (0, 0, 0)%Q ci /\
                (30000 <= 200 * 200)%Q).
Proof.
  intros self. split; [reflexivity|]. split; [reflexivity|].
  split; [reflexivity|].
  destruct (find_neighbors_exact Engine.nonempty no_field no_field self
              scenario_ops 10 1 1 0 200 1 (0, 0, 0)%Q)
    as (found & Hfound & _ & _ & Hmem).
  - intros g' Hlen. unfold Engine.nonempty. by destruct (Engine.len g').
  - reflexivity.
  - reflexivity.
  - lia.
  - discriminate.
  - reflexivity.
  - exists found. split; [exact Hfound|]. exact (Hmem 3 (Sqrt 30000)).
Defined.

(** * Further properties of the token storage *)

(** ** [update] *)

(** X1: [update] neither adds nor removes a token and never moves the id
    counter, whether it returns or raises; tokens under other ids are
    untouched; on an unknown id it returns [None] and changes nothing; the
    token under a known id keeps its id and its flags. *)
Theorem update_frame token_id token_data self :
  let '(r, self') := TokenStorage.update token_id token_data self in
  dom (TokenStorage._storage self') = dom (TokenStorage._storage self) /\
  TokenStorage.count self' = TokenStorage.count self /\
  TokenStorage._next_local_id self' = TokenStorage._next_local_id self /\
  (forall j, j <> token_id ->
     TokenStorage.get j self' = TokenStorage.get j self) /\
  (TokenStorage.get token_id self = None -> r = Return None /\ self' = self) /\
  (forall t, TokenStorage.get token_id self = Some t ->
     exists t', TokenStorage.get token_id self' = Some t' /\
                id t' = id t /\ flags t' = flags t).
Proof.
  unfold TokenStorage.update, TokenStorage.get, TokenStorage.count.
  destruct (TokenStorage._storage self !! token_id) as [t|] eqn:Ht.
  - destruct (copy_levels token_data (seq 0 8) _) as [r t'] eqn:Hc.
    apply copy_levels_scalars in Hc as (Hid & _ & _ & _ & Hfl).
    assert (dom (<[token_id := t']> (TokenStorage._storage self))
            = dom (TokenStorage._storage self)) as Hdom.
    { rewrite dom_insert_L. apply elem_of_dom_2 in Ht. set_solver. }
    assert (id t' = id t /\ flags t' = flags t) as [Hid' Hfl'].
    { rewrite Hid, Hfl. unfold TokenStorage.update_field.
      by destruct (token_data !! "weight"), (token_data !! "field_radius"),
           (token_data !! "field_strength"). }
    destruct r; simpl; (split_and!;
      [done
      |by rewrite <- !size_dom, Hdom
      |done
      |by intros j Hj; rewrite lookup_insert_ne
      |done
      |intros ? [= <-]; exists t'; by rewrite lookup_insert_eq]).
  - simpl. split_and!; done.
Qed.

(** X2: when [update] returns a token, that token is the one now stored
    under the id, and each of weight, field_radius and field_strength is the
    value given in [token_data] if the key is there and the old value if it
    is not. *)
Theorem update_fields token_id token_data self token self' :
  TokenStorage.update token_id token_data self = (Return (Some token), self') ->
  exists old,
    TokenStorage.get token_id self = Some old /\
    TokenStorage.get token_id self' = Some token /\
    weight token = default (weight old) (token_data !! "weight") /\
    field_radius token = default (field_radius old) (token_data !! "field_radius") /\
    field_strength token
    = default (field_strength old) (token_data !! "field_strength").
Proof.
  unfold TokenStorage.update, TokenStorage.get.
  destruct (TokenStorage._storage self !! token_id) as [old|] eqn:Hold; [|done].
  destruct (copy_levels token_data (seq 0 8) _) as [r t'] eqn:Hc.
  destruct r; [|done]. intros [= <- <-]. exists old. simpl.
  rewrite lookup_insert_eq. split; [done|]. split; [done|].
  apply copy_levels_scalars in Hc as (_ & -> & -> & -> & _).
  unfold TokenStorage.update_field.
  by destruct (token_data !! "weight"), (token_data !! "field_radius"),
       (token_data !! "field_strength").
Qed.

Lemma update_fields_witness :
  let self := (TokenStorage.create (H := sample_ids) ∅
                 (TokenStorage.__init__ TokenStorage.blank)).2 in
  let token_data : gmap string PyVal := {[ "weight" := PyFloat 0.75%float ]} in
  exists token,
    (TokenStorage.update 1 token_data self).1 = Return (Some token) /\
    weight token = PyFloat 0.75%float /\ field_radius token = PyFloat 1%float.
Proof.
  intros self token_data.
  edestruct (update_fields 1 token_data self) as (old & Hold & _ & Hw & Hr & _).
  { vm_compute. reflexivity. }
  vm_compute in Hold. injection Hold as <-.
  eexists. split; [vm_compute; reflexivity|]. split; [exact Hw|exact Hr].
Defined.

(** ** [create] and [clear] *)

Section TokenCreateFacts.
Context `{TokenIds}.

(** X3: a [create] that raises stores nothing; yet when the failure comes
    after the id was packed, the local id is spent all the same. *)
Theorem create_failure_stores_nothing token_data self e :
  (TokenStorage.create token_data self).1 = Raise e ->
  TokenStorage._storage (TokenStorage.create token_data self).2
  = TokenStorage._storage self /\
  TokenStorage._next_local_id (TokenStorage.create token_data self).2
  = TokenStorage._next_local_id self
    + match TokenStorage.consumed_local_id token_data self with
      | Some _ => 1
      | None => 0
      end.
Proof.
  unfold TokenStorage.create, TokenStorage.consumed_local_id.
  destruct (create_token_id _ _ _) as [token_id|]; simpl; [|intros _; split; [done|lia]].
  destruct (TokenStorage.build_token token_id token_data); [done|].
  simpl. done.
Qed.

(** X4: a returning [create] stores the token under its id and leaves the
    tokens under all other ids as they are. *)
Theorem create_stores token_data self token self' :
  TokenStorage.create token_data self = (Return token, self') ->
  TokenStorage.get (id token) self' = Some token /\
  forall j, j <> id token -> TokenStorage.get j self' = TokenStorage.get j self.
Proof.
  intros Hc. apply create_returns in Hc as (_ & _ & Hst & _).
  unfold TokenStorage.get. rewrite Hst. split; [apply lookup_insert_eq|].
  intros j Hj. by rewrite lookup_insert_ne.
Qed.

End TokenCreateFacts.

Lemma create_failure_stores_nothing_witness :
  let self := TokenStorage.__init__ TokenStorage.blank in
  let token_data : gmap string PyVal := {[ "l1_physical" := PyInt 5 ]} in
  (TokenStorage.create (H := sample_ids) token_data self).1 = Raise AttributeError /\
  TokenStorage._storage (TokenStorage.create (H := sample_ids) token_data self).2 = ∅ /\
  TokenStorage._next_local_id (TokenStorage.create (H := sample_ids) token_data self).2
  = 2.
Proof.
  split; [reflexivity|].
  exact (create_failure_stores_nothing (H := sample_ids)
           {[ "l1_physical" := PyInt 5 ]}
           (TokenStorage.__init__ TokenStorage.blank) AttributeError eq_refl).
Defined.

Lemma create_stores_witness :
  let self := TokenStorage.__init__ TokenStorage.blank in
  (TokenStorage.create (H := sample_ids) ∅ self).1 = Return (Token_new 1) /\
  TokenStorage.get 1 (TokenStorage.create (H := sample_ids) ∅ self).2
  = Some (Token_new 1).
Proof.
  split; [reflexivity|].
  exact (proj1 (create_stores (H := sample_ids) ∅
                  (TokenStorage.__init__ TokenStorage.blank) _ _ eq_refl)).
Defined.

(** X5: [clear] returns the number of tokens it removes; afterwards the
    storage is empty — [count()] is 0, every [get] is [None], [list] is
    empty — and the id counter is back at 1. *)
Theorem clear_spec self :
  let '(n, self') := TokenStorage.clear self in
  n = TokenStorage.count self /\
  TokenStorage.count self' = 0 /\
  (forall j, TokenStorage.get j self' = None) /\
  (forall limit offset, TokenStorage.list limit offset self' = []) /\
  TokenStorage._next_local_id self' = 1.
Proof.
  unfold TokenStorage.clear, TokenStorage.count, TokenStorage.get,
    TokenStorage.list. simpl.
  split_and!; [done|by rewrite map_size_empty|done| |done].
  intros lim off. rewrite map_to_list_empty. simpl.
  destruct (lim =? 0); [done|].
  unfold py_slice. by rewrite drop_nil, take_nil.
Qed.

(** ** [list] *)

Lemma py_slice_nonneg {A} (start stop : Z) (l : list A) :
  0 <= start -> 0 <= stop ->
  py_slice start stop l
  = take (Z.to_nat stop - Z.to_nat start) (drop (Z.to_nat start) l).
Proof.
  intros Hstart Hstop. unfold py_slice, slice_bound.
  rewrite (proj2 (Z.ltb_ge start 0)), (proj2 (Z.ltb_ge stop 0)) by lia.
  destruct (decide (Z.of_nat (length l) <= start)) as [Hge|Hlt].
  - cbv zeta. rewrite (Z.min_r start) by lia. rewrite !drop_ge by lia.
    by rewrite !take_nil.
  - cbv zeta. rewrite (Z.min_l start) by lia.
    destruct (decide (stop <= Z.of_nat (length l))) as [Hle|Hgt].
    + rewrite Z.min_l by lia. f_equal. lia.
    + rewrite Z.min_r by lia. rewrite !take_ge; [done|..];
        rewrite length_drop; lia.
Qed.

Lemma take_app_take_drop {A} (a b : nat) (l : list A) :
  take a l ++ take b (drop a l) = take (a + b) l.
Proof.
  revert l. induction a as [|a IH]; intros l; [done|].
  destruct l as [|x l]; simpl; [by rewrite take_nil|]. by rewrite IH.
Qed.

(** X6: [list(0, offset)] returns every token, whatever the offset.  With
    an offset that is not negative and a positive limit, [list] returns the
    tokens from position [offset] on, at most [limit] of them: their number
    is [min(limit, max(0, count() - offset))].  Every token listed is one
    the storage holds. *)
Theorem list_pagination (limit offset : Z) self :
  0 <= offset -> 0 < limit ->
  TokenStorage.list 0 offset self = TokenStorage.list 0 0 self /\
  Z.of_nat (length (TokenStorage.list 0 offset self)) = TokenStorage.count self /\
  TokenStorage.list limit offset self
  = take (Z.to_nat limit) (drop (Z.to_nat offset) (TokenStorage.list 0 0 self)) /\
  Z.of_nat (length (TokenStorage.list limit offset self))
  = Z.min limit (Z.max 0 (TokenStorage.count self - offset)) /\
  (forall t, t ∈ TokenStorage.list limit offset self ->
     exists j, TokenStorage.get j self = Some t).
Proof.
  intros Hoffset Hlimit. unfold TokenStorage.list, TokenStorage.count.
  rewrite (proj2 (Z.eqb_neq limit 0)) by lia. simpl.
  set (tokens := (map_to_list (TokenStorage._storage self)).*2).
  assert (length tokens = size (TokenStorage._storage self)) as Hlen
    by (unfold tokens; by rewrite length_fmap, length_map_to_list).
  rewrite py_slice_nonneg by lia.
  replace (Z.to_nat (offset + limit) - Z.to_nat offset)%nat
    with (Z.to_nat limit) by lia.
  split_and!; [done|by rewrite Hlen|done| |].
  - rewrite length_take, length_drop, Hlen. lia.
  - intros t Ht. apply subseteq_take, subseteq_drop in Ht.
    unfold tokens in Ht. apply list_elem_of_fmap in Ht as ([j t'] & -> & Hin).
    apply elem_of_map_to_list in Hin. by exists j.
Qed.

Lemma list_pagination_witness :
  let self := (TokenStorage.create (H := sample_ids) ∅
                 (TokenStorage.__init__ TokenStorage.blank)).2 in
  TokenStorage.list 5 0 self = [Token_new 1] /\
  Z.of_nat (length (TokenStorage.list 5 0 self))
  = Z.min 5 (Z.max 0 (TokenStorage.count self - 0)).
Proof.
  split; [reflexivity|].
  refine (proj1 (proj2 (proj2 (proj2 (list_pagination 5 0 _ _ _))))); lia.
Defined.

(** X7: consecutive pages concatenate: the page of [a] tokens at [offset]
    followed by the page of [b] tokens at [offset + a] is the page of
    [a + b] tokens at [offset]. *)
Theorem list_pages_concat (a b offset : Z) self :
  0 <= offset -> 0 < a -> 0 < b ->
  TokenStorage.list a offset self ++ TokenStorage.list b (offset + a) self
  = TokenStorage.list (a + b) offset self.
Proof.
  intros Hoffset Ha Hb.
  destruct (list_pagination a offset self) as (_ & _ & -> & _); [lia..|].
  destruct (list_pagination b (offset + a) self) as (_ & _ & -> & _); [lia..|].
  destruct (list_pagination (a + b) offset self) as (_ & _ & -> & _); [lia..|].
  rewrite !Z2Nat.inj_add by lia.
  rewrite <- drop_drop. apply take_app_take_drop.
Qed.

Lemma list_pages_concat_witness :
  let self := (TokenStorage.create (H := sample_ids) ∅
                 (TokenStorage.create (H := sample_ids) ∅
                    (TokenStorage.__init__ TokenStorage.blank)).2).2 in
  length (TokenStorage.list 2 0 self) = 2%nat /\
  TokenStorage.list 1 0 self ++ TokenStorage.list 1 (0 + 1) self
  = TokenStorage.list (1 + 1) 0 self.
Proof.
  split; [reflexivity|]. apply list_pages_concat; lia.
Defined.

(** * Further properties of the grid storage *)

Section GridStorageMore.
Context `{GridEngine}.

Lemma lookup_grid_Some grid_id (self : GridStorage.InMemoryGridStorage) grid :
  GridStorage.lookup_grid grid_id self = Some grid ->
  GridStorage._grids self !! grid_id = Some grid.
Proof.
  unfold GridStorage.lookup_grid.
  destruct (GridStorage._grids self !! grid_id) as [g|]; [|done].
  by destruct (Grid_bool g); intros [= <-].
Qed.

(** X8: [add_token] and [remove_token] never create or delete a grid and
    never move the grid id counter, whether they return or raise; the grids
    under other ids are untouched. *)
Theorem token_calls_keep_the_grids GRID_AVAILABLE grid_id token token_id
    (self : GridStorage.InMemoryGridStorage) :
  let added := (GridStorage.add_token GRID_AVAILABLE grid_id token self).2 in
  let removed := (GridStorage.remove_token grid_id token_id self).2 in
  (dom (GridStorage._grids added) = dom (GridStorage._grids self) /\
   GridStorage._next_grid_id added = GridStorage._next_grid_id self /\
   forall g, g <> grid_id ->
     GridStorage.get_grid g added = GridStorage.get_grid g self) /\
  (dom (GridStorage._grids removed) = dom (GridStorage._grids self) /\
   GridStorage._next_grid_id removed = GridStorage._next_grid_id self /\
   forall g, g <> grid_id ->
     GridStorage.get_grid g removed = GridStorage.get_grid g self).
Proof.
  unfold GridStorage.add_token, GridStorage.remove_token, GridStorage.get_grid.
  destruct (GridStorage.lookup_grid grid_id self) as [grid|] eqn:Hl.
  - apply lookup_grid_Some in Hl.
    assert (forall g' : Grid,
              dom (<[grid_id := g']> (GridStorage._grids self))
              = dom (GridStorage._grids self)) as Hdom.
    { intros g'. rewrite dom_insert_L. apply elem_of_dom_2 in Hl. set_solver. }
    split.
    + destruct GRID_AVAILABLE; simpl; [|done].
      destruct (GridStorage.to_rust_token token); simpl; [|done].
      split_and!; [apply Hdom|done|]. intros g Hg. by rewrite lookup_insert_ne.
    + destruct (Grid_remove token_id grid) as [removed grid']. simpl.
      split_and!; [apply Hdom|done|]. intros g Hg. by rewrite lookup_insert_ne.
  - split; [by destruct GRID_AVAILABLE|done].
Qed.

(** X9: an empty [config] dictionary counts as no config: [create_grid({})]
    does what [create_grid(None)] does, so the grid is built by [Grid()]
    and the three values of the [if config:] branch play no part.  A
    non-empty dictionary gives a [GridConfig] with each key it has and
    10.0, 0.5 and 3 for the keys it lacks. *)
Theorem create_grid_config GRID_AVAILABLE (self : GridStorage.InMemoryGridStorage) :
  GridStorage.create_grid GRID_AVAILABLE (Some ∅) self
  = GridStorage.create_grid GRID_AVAILABLE None self /\
  forall d : gmap string PyVal, d <> ∅ ->
    GridStorage.make_config (Some d)
    = Some {| bucket_size := default (PyFloat 10%float) (d !! "bucket_size");
              density_threshold := default (PyFloat 0.5%float) (d !! "density_threshold");
              min_field_nodes := default (PyInt 3) (d !! "min_field_nodes") |}.
Proof.
  split; [done|]. intros d Hd. unfold GridStorage.make_config, py_truthy.
  destruct (size d) eqn:Hsize; [by apply map_size_empty_inv in Hsize|].
  simpl. unfold dict_get.
  by destruct (d !! "bucket_size"), (d !! "density_threshold"),
       (d !! "min_field_nodes").
Qed.

(** X10: without the engine bindings nothing ever gets into the storage:
    after any sequence of calls it is still the fresh storage, and no
    [create_grid] has returned an id. *)
Theorem no_bindings_no_grids (ops : list GridStorage.Op) :
  GridStorage.run false ops GridStorage.fresh_storage
  = ([], GridStorage.fresh_storage).
Proof.
  induction ops as [|o ops IH]; [done|]. simpl.
  assert (GridStorage.step false o GridStorage.fresh_storage
          = GridStorage.fresh_storage) as ->.
  { destruct o as [config|grid_id|grid_id token|grid_id token_id]; simpl; try done. }
  rewrite IH. by destruct o.
Qed.

Lemma step_ids_below GRID_AVAILABLE o (self : GridStorage.InMemoryGridStorage) :
  (1 <= GridStorage._next_grid_id self /\
   forall g, is_Some (GridStorage._grids self !! g) ->
     1 <= g < GridStorage._next_grid_id self) ->
  1 <= GridStorage._next_grid_id (GridStorage.step GRID_AVAILABLE o self) /\
  forall g, is_Some (GridStorage._grids (GridStorage.step GRID_AVAILABLE o self) !! g) ->
    1 <= g < GridStorage._next_grid_id (GridStorage.step GRID_AVAILABLE o self).
Proof.
  intros [Hone Hinv].
  destruct o as [config|grid_id|grid_id token|grid_id token_id]; simpl.
  - unfold GridStorage.create_grid. destruct GRID_AVAILABLE; simpl; [|done].
    destruct (Grid_new _) as [grid|]; simpl; [|done].
    split; [lia|]. intros g. rewrite lookup_insert. case_decide as Hg.
    + subst g. intros _. lia.
    + intros Hs. specialize (Hinv _ Hs). lia.
  - unfold GridStorage.delete_grid.
    destruct (GridStorage._grids self !! grid_id) as [grid|]; simpl; [|done].
    split; [done|]. intros g.
    rewrite lookup_delete. case_decide; [by intros [? ?]|apply Hinv].
  - pose proof (token_calls_keep_the_grids GRID_AVAILABLE grid_id token 0 self)
      as [(Hdom & -> & _) _].
    split; [done|]. intros g.
    rewrite <- !elem_of_dom, Hdom, elem_of_dom. apply Hinv.
  - pose proof (token_calls_keep_the_grids true grid_id (Token_new 0) token_id self)
      as [_ (Hdom & -> & _)].
    split; [done|]. intros g.
    rewrite <- !elem_of_dom, Hdom, elem_of_dom. apply Hinv.
Qed.

Lemma run_ids_below GRID_AVAILABLE ops (self : GridStorage.InMemoryGridStorage) :
  (1 <= GridStorage._next_grid_id self /\
   forall g, is_Some (GridStorage._grids self !! g) ->
     1 <= g < GridStorage._next_grid_id self) ->
  let final := (GridStorage.run GRID_AVAILABLE ops self).2 in
  1 <= GridStorage._next_grid_id final /\
  forall g, is_Some (GridStorage._grids final !! g) ->
    1 <= g < GridStorage._next_grid_id final.
Proof.
  revert self. induction ops as [|o ops IH]; intros self Hinv; [done|].
  simpl. specialize (IH _ (step_ids_below GRID_AVAILABLE o self Hinv)).
  by destruct (GridStorage.run GRID_AVAILABLE ops _).
Qed.

(** X11: in every state the storage can reach from a fresh one, each grid
    id it holds lies between 1 and the id counter.  So a [create_grid] that
    returns never overwrites a grid: the id it returns was not in use, the
    storage has exactly one grid more, and every other grid is where it
    was. *)
Theorem create_grid_is_fresh GRID_AVAILABLE (ops : list GridStorage.Op) config :
  let self := (GridStorage.run GRID_AVAILABLE ops GridStorage.fresh_storage).2 in
  (forall g, g ∈ GridStorage.list_grids self ->
     1 <= g < GridStorage._next_grid_id self) /\
  forall g self', GridStorage.create_grid GRID_AVAILABLE config self = (Return g, self') ->
    GridStorage.get_grid g self = None /\
    is_Some (GridStorage.get_grid g self') /\
    length (GridStorage.list_grids self') = S (length (GridStorage.list_grids self)) /\
    forall g', g' <> g -> GridStorage.get_grid g' self' = GridStorage.get_grid g' self.
Proof.
  intros self.
  destruct (run_ids_below GRID_AVAILABLE ops GridStorage.fresh_storage) as [Hone Hinv].
  { split; [done|]. intros g. simpl. rewrite lookup_empty. by intros [? ?]. }
  fold self in Hone, Hinv. split.
  - intros g Hg. apply Hinv. by apply elem_of_list_grids.
  - intros g self'. unfold GridStorage.create_grid, GridStorage.get_grid.
    destruct GRID_AVAILABLE; simpl; [|done].
    destruct (Grid_new _) as [grid|]; [|done]. intros [= <- <-]. simpl.
    assert (GridStorage._grids self !! GridStorage._next_grid_id self = None) as Hnone.
    { destruct (GridStorage._grids self !! GridStorage._next_grid_id self) eqn:Hn;
        [|done]. specialize (Hinv _ (mk_is_Some _ _ Hn)). lia. }
    split_and!; [done|by rewrite lookup_insert_eq| |].
    + unfold GridStorage.list_grids. simpl.
      rewrite !length_fmap, !length_map_to_list.
      by apply map_size_insert_None.
    + intros g' Hg'. by rewrite lookup_insert_ne.
Qed.

End GridStorageMore.

(** * Properties of the CDNA storage *)

(** ** [validate_scales] *)






Lemma zip_take_length {A B} (l : list A) (k : list B) :
  zip (take (length k) l) k = zip l k.
Proof.
  revert l. induction k as [|y k IH]; intros [|x l]; simpl; try done.
  by rewrite IH.
Qed.

(** X13: only the first eight values are looked at: anything after them is
    ignored, and a list with fewer than eight values is checked on the
    dimensions it has — the empty list is valid, with no message. *)
Theorem validate_scales_first_eight (scales : list Q) :
  CDNAStorage.validate_scales scales
  = CDNAStorage.validate_scales (take 8 scales) /\
  CDNAStorage.validate_scales [] = (true, [], []).
Proof.
  split; [|done]. unfold CDNAStorage.validate_scales.
  by rewrite <- (zip_take_length scales CDNAStorage.dimension_limits).
Qed.





(** ** Profiles *)

Lemma profiles_keys profile_id p :
  CDNAStorage.PROFILES !! profile_id = Some p ->
  profile_id = "explorer" \/ profile_id = "analyzer" \/
  profile_id = "creative" \/ profile_id = "quarantine".
Proof.
  unfold CDNAStorage.PROFILES. cbn [list_to_map foldr uncurry].
  rewrite !lookup_insert. repeat case_decide; subst; eauto.
  rewrite lookup_empty. done.
Qed.

(** X15: the built-in profiles and [validate_scales] disagree: the scales
    of a profile pass validation exactly when the profile is not
    "creative", whose temporal scale 21.0 exceeds the limit 20. *)
Theorem profile_scales_valid_iff profile_id p scales :
  CDNAStorage.get_profile profile_id = Some p ->
  CDNAStorage.floats_of (default JNone (p !! "scales")) = Some scales ->
  (CDNAStorage.validate_scales scales).1.1 = true <-> profile_id <> "creative".
Proof.
  unfold CDNAStorage.get_profile. intros Hp Hscales.
  assert (default JNone (p !! "scales") = CDNAStorage.scales_of profile_id) as Heq
    by (unfold CDNAStorage.scales_of; by rewrite Hp).
  rewrite Heq in Hscales. clear Heq.
  destruct (profiles_keys _ _ Hp) as [-> | [-> | [-> | ->]]]; clear Hp;
    vm_compute in Hscales; injection Hscales as <-.
  - split; [intros _; discriminate|intros _; vm_compute; reflexivity].
  - split; [intros _; discriminate|intros _; vm_compute; reflexivity].
  - split; [vm_compute; discriminate|intros Hne; by destruct Hne].
  - split; [intros _; discriminate|intros _; vm_compute; reflexivity].
Qed.

Lemma profile_scales_valid_iff_witness :
  exists p scales,
    CDNAStorage.get_profile "creative" = Some p /\
    CDNAStorage.floats_of (default JNone (p !! "scales")) = Some scales /\
    (CDNAStorage.validate_scales scales).2 = [CDNAStorage.OutOfRange 6 21 0 20] /\
    ((CDNAStorage.validate_scales scales).1.1 = true <-> "creative" <> "creative").
Proof.
  eexists _, _. split; [reflexivity|]. split; [reflexivity|].
  split; [reflexivity|].
  eapply (profile_scales_valid_iff "creative"); reflexivity.
Defined.

(** ** Configuration *)

(** X16: [switch_profile] returns [True] exactly for the ids of [PROFILES].
    Then the configuration names that profile, holds its scales and is
    stamped with the current time.  For an unknown id the storage is
    unchanged.  In both cases the version, the history and the quarantine
    state are as before. *)
Theorem switch_profile_spec profile_id now self :
  let '(b, self') := CDNAStorage.switch_profile profile_id now self in
  (b = true <-> is_Some (CDNAStorage.get_profile profile_id)) /\
  (b = true ->
     CDNAStorage.profile (CDNAStorage.get_config self') = JStr profile_id /\
     CDNAStorage.dimension_scales (CDNAStorage.get_config self')
     = CDNAStorage.scales_of profile_id /\
     CDNAStorage.timestamp (CDNAStorage.get_config self') = now) /\
  (b = false -> self' = self) /\
  CDNAStorage.version (CDNAStorage.get_config self')
  = CDNAStorage.version (CDNAStorage.get_config self) /\
  CDNAStorage._history self' = CDNAStorage._history self /\
  CDNAStorage._quarantine self' = CDNAStorage._quarantine self.
Proof.
  unfold CDNAStorage.switch_profile, CDNAStorage.get_profile,
    CDNAStorage.scales_of, CDNAStorage.get_config.
  destruct (CDNAStorage.PROFILES !! profile_id) as [p|]; simpl.
  - split_and!; try done; by split; eauto.
  - split_and!; done.
Qed.

(** X17: [update_config] looks at the keys [profile] and
    [dimension_scales] only: two dictionaries that agree on these two keys
    have the same effect.  It always returns [True], stores the values it
    is given without checking them, keeps the old value of a key that is
    not given, and leaves version, history and quarantine alone. *)
Theorem update_config_spec (config config' : gmap string JVal) now self :
  config !! "profile" = config' !! "profile" ->
  config !! "dimension_scales" = config' !! "dimension_scales" ->
  CDNAStorage.update_config config now self
  = CDNAStorage.update_config config' now self /\
  let '(b, self') := CDNAStorage.update_config config now self in
  b = true /\
  CDNAStorage.profile (CDNAStorage.get_config self')
  = default (CDNAStorage.profile (CDNAStorage.get_config self))
      (config !! "profile") /\
  CDNAStorage.dimension_scales (CDNAStorage.get_config self')
  = default (CDNAStorage.dimension_scales (CDNAStorage.get_config self))
      (config !! "dimension_scales") /\
  CDNAStorage.timestamp (CDNAStorage.get_config self') = now /\
  CDNAStorage.version (CDNAStorage.get_config self')
  = CDNAStorage.version (CDNAStorage.get_config self) /\
  CDNAStorage._history self' = CDNAStorage._history self /\
  CDNAStorage._quarantine self' = CDNAStorage._quarantine self.
Proof.
  intros Hp Hs. unfold CDNAStorage.update_config, CDNAStorage.get_config.
  rewrite <- Hp, <- Hs. split; [done|].
  by destruct (config !! "profile"), (config !! "dimension_scales").
Qed.

Lemma update_config_spec_witness :
  let config : gmap string JVal :=
    {[ "profile" := JStr "nonsense"; "version" := JStr "9" ]} in
  let config' : gmap string JVal := {[ "profile" := JStr "nonsense" ]} in
  let self := CDNAStorage.fresh_storage "t0" in
  CDNAStorage.get_config (CDNAStorage.update_config config "t1" self).2
  = CDNAStorage.mkConfig "2.1.0" (JStr "nonsense")
      (CDNAStorage.scales_of "explorer") "t1" /\
  CDNAStorage.update_config config "t1" self
  = CDNAStorage.update_config config' "t1" self.
Proof.
  split; [reflexivity|].
  exact (proj1 (update_config_spec
                  {[ "profile" := JStr "nonsense"; "version" := JStr "9" ]}
                  {[ "profile" := JStr "nonsense" ]} "t1"
                  (CDNAStorage.fresh_storage "t0") eq_refl eq_refl)).
Defined.

(** ** History *)

(** X18: [get_history(limit)] with a limit that is not negative returns
    the [limit] most recent entries, newest first (all of them when there
    are fewer); with a negative limit it returns all entries but the
    [-limit] oldest. *)
Theorem get_history_spec (limit : Z) self :
  CDNAStorage.get_history limit self
  = take (if limit <? 0
          then (length (CDNAStorage._history self) - Z.to_nat (- limit))%nat
          else Z.to_nat limit)
      (CDNAStorage._history self).
Proof.
  unfold CDNAStorage.get_history, py_slice, slice_bound. simpl.
  rewrite (Z.min_l 0) by lia. simpl. rewrite Z.sub_0_r.
  change (Z.to_nat 0) with 0%nat. rewrite drop_0.
  destruct (limit <? 0) eqn:Hl.
  - apply Z.ltb_lt in Hl. f_equal. lia.
  - apply Z.ltb_ge in Hl.
    destruct (decide (limit <= Z.of_nat (length (CDNAStorage._history self)))).
    + by rewrite Z.min_l by lia.
    + rewrite Z.min_r by lia. rewrite !take_ge; [done|lia..].
Qed.


(** ** Quarantine *)

(** X20: the quarantine is a two-state machine.  [start_quarantine]
    returns [True] exactly when it was not active, and leaves it active;
    [stop_quarantine] returns [True] exactly when it was active, and leaves
    it inactive; a call that returns [False] changes nothing.  Stopping
    with [apply] adds one entry to the history, in front, with the action
    "quarantine_applied", the metrics and the time; stopping without adds
    none.  Neither call touches the configuration. *)
Theorem quarantine_state_machine apply now self :
  let '(started, s1) := CDNAStorage.start_quarantine self in
  let '(stopped, s2) := CDNAStorage.stop_quarantine apply now self in
  let was_active := CDNAStorage.active (CDNAStorage.get_quarantine_status self) in
  started = negb was_active /\
  CDNAStorage.active (CDNAStorage.get_quarantine_status s1) = true /\
  (started = false -> s1 = self) /\
  CDNAStorage._config s1 = CDNAStorage._config self /\
  CDNAStorage._history s1 = CDNAStorage._history self /\
  stopped = was_active /\
  CDNAStorage.active (CDNAStorage.get_quarantine_status s2) = false /\
  (stopped = false -> s2 = self) /\
  CDNAStorage._config s2 = CDNAStorage._config self /\
  CDNAStorage._history s2
  = (if stopped && apply
     then [ {[ "action" := JStr "quarantine_applied";
               "metrics" := CDNAStorage.metrics_value
                              (CDNAStorage.metrics (CDNAStorage._quarantine self));
               "timestamp" := JStr now ]} ]
     else []) ++ CDNAStorage._history self.
Proof.
  unfold CDNAStorage.start_quarantine, CDNAStorage.stop_quarantine,
    CDNAStorage.get_quarantine_status.
  destruct self as [c h [a tl m]]. simpl.
  destruct a, apply; simpl; split_and!; done.
Qed.



(** * The module-level accessors *)

Section SingleFacts.
Context {Obj : Type}.
Implicit Types (c : Memory.Single Obj) (init : Obj).

Lemma single_construct_again init c l :
  Memory.single_inv c -> Memory._instance c = Some l ->
  Memory.construct init c = (l, c).
Proof.
  unfold Memory.single_inv, Memory.construct, Memory.__new__, Memory.object.
  intros Hinv Hl. rewrite Hl in Hinv |- *. destruct Hinv as [[o Ho] _].
  f_equal. destruct c as [objs inst glob]. unfold Memory.__init__. simpl in *.
  f_equal. apply alter_id. intros o' Ho'. rewrite Ho' in Ho. by subst o'.
Qed.

Lemma single_construct_inv init c :
  Memory.single_inv c ->
  Memory.single_inv (Memory.construct init c).2 /\
  Memory._instance (Memory.construct init c).2 = Some (Memory.construct init c).1 /\
  Memory.global (Memory.construct init c).2 = Memory.global c.
Proof.
  intros Hinv. destruct (Memory._instance c) as [l|] eqn:Hl.
  - by rewrite (single_construct_again init c l).
  - unfold Memory.single_inv in Hinv. rewrite Hl in Hinv.
    unfold Memory.construct, Memory.__new__. rewrite Hl. simpl.
    split_and!; [|done|done].
    unfold Memory.single_inv, Memory.object. simpl. split; [|by left].
    by rewrite lookup_alter_eq, lookup_insert_eq.
Qed.

Lemma single_get_memory init c :
  Memory.single_inv c ->
  Memory.single_inv (Memory.get_memory init c).2 /\
  Memory._instance (Memory.get_memory init c).2 = Some (Memory.get_memory init c).1 /\
  Memory.global (Memory.get_memory init c).2 = Some (Memory.get_memory init c).1 /\
  (forall l, Memory._instance c = Some l ->
     (Memory.get_memory init c).1 = l /\
     Memory.objects (Memory.get_memory init c).2 = Memory.objects c).
Proof.
  intros Hinv. unfold Memory.get_memory.
  destruct (Memory.global c) as [l|] eqn:Hg.
  - simpl. pose proof Hinv as Hinv0. unfold Memory.single_inv in Hinv.
    destruct (Memory._instance c) as [l'|] eqn:Hl; [|congruence].
    destruct Hinv as [_ [?|Heq]]; [congruence|].
    rewrite Hg in Heq. injection Heq as <-.
    split_and!; [done|done|done|by intros ? [= <-]].
  - destruct (single_construct_inv init c Hinv) as (Hinv' & Hinst & _).
    destruct (Memory._instance c) as [l'|] eqn:Hl.
    + rewrite (single_construct_again init c l') in * by done. simpl in *.
      split_and!; try done.
      * unfold Memory.single_inv in *. simpl. rewrite Hl in *.
        split; [tauto|by right].
      * by intros ? [= <-].
    + destruct (Memory.construct init c) as [l c'] eqn:Hc. simpl in *.
      split_and!; try done.
      unfold Memory.single_inv in *. simpl. rewrite Hinst in *.
      split; [tauto|by right].
Qed.

Lemma single_release_inv c :
  Memory.single_inv c -> Memory.single_inv (Memory.release c).
Proof.
  unfold Memory.single_inv, Memory.release, Memory.object. simpl.
  destruct (Memory._instance c); [|done]. intros [? _]. split; [done|by left].
Qed.

Lemma single_call_inv l f c :
  Memory.single_inv c -> Memory.single_inv (Memory.call l f c).
Proof.
  unfold Memory.single_inv, Memory.call, Memory.object. simpl.
  destruct (Memory._instance c) as [l'|]; [|done]. intros [[o Ho] Hg].
  split; [|done].
  destruct (Memory.objects c !! l') as [o'|] eqn:Hl'; [|done]. subst o'.
  destruct (decide (l = l')) as [->|Hne].
  - rewrite lookup_alter_eq, Hl'. simpl. eauto.
  - rewrite lookup_alter_ne, Hl' by done. eauto.
Qed.

(** What cleanup and a later fetch do to one singleton that holds an
    instance: the fetch returns the instance, and its object is as it
    was. *)
Lemma single_release_get_memory init c l :
  Memory.single_inv c -> Memory._instance c = Some l ->
  (Memory.get_memory init (Memory.release c)).1 = l /\
  Memory.object l (Memory.get_memory init (Memory.release c)).2
  = Memory.object l c /\
  is_Some (Memory.object l c).
Proof.
  intros Hinv Hl.
  destruct (single_get_memory init (Memory.release c) (single_release_inv c Hinv))
    as (_ & _ & _ & Hsame).
  destruct (Hsame l Hl) as [-> Hobjs]. split; [done|].
  unfold Memory.object. rewrite Hobjs. simpl. split; [done|].
  unfold Memory.single_inv in Hinv. rewrite Hl in Hinv. apply Hinv.
Qed.

End SingleFacts.

Section MemoryFacts.
Context `{GridEngine} `{TokenIds}.
Variable GRID_AVAILABLE : bool.

Lemma initialize_components now (m : Memory.State) :
  Memory.initialize_memory_storage now m
  = {| Memory.token := (TokenStorage.get_memory_token_storage (Memory.token m)).2;
       Memory.grid := (Memory.get_memory GridStorage.fresh_storage (Memory.grid m)).2;
       Memory.cdna :=
         (Memory.get_memory (CDNAStorage.fresh_storage now) (Memory.cdna m)).2 |}.
Proof.
  unfold Memory.initialize_memory_storage, Memory.get_memory_cdna_storage,
    Memory.get_memory_grid_storage, Memory.get_memory_token_storage.
  destruct (TokenStorage.get_memory_token_storage (Memory.token m)) as [lt w].
  simpl.
  destruct (Memory.get_memory GridStorage.fresh_storage (Memory.grid m)) as [lg g'].
  simpl.
  by destruct (Memory.get_memory (CDNAStorage.fresh_storage now) (Memory.cdna m)).
Qed.

Lemma get_memory_token_storage_twice w :
  (TokenStorage.get_memory_token_storage
     (TokenStorage.get_memory_token_storage w).2).2
  = (TokenStorage.get_memory_token_storage w).2.
Proof.
  unfold TokenStorage.get_memory_token_storage.
  destruct (TokenStorage._token_storage w) as [l|] eqn:Ht; simpl; [by rewrite Ht|].
  by destruct (TokenStorage.construct w) as [l w'].
Qed.

Lemma get_memory_twice {Obj} (init init' : Obj) (c : Memory.Single Obj) :
  (Memory.get_memory init' (Memory.get_memory init c).2).2
  = (Memory.get_memory init c).2.
Proof.
  unfold Memory.get_memory.
  destruct (Memory.global c) as [l|] eqn:Hg; simpl; [by rewrite Hg|].
  by destruct (Memory.construct init c) as [l c'].
Qed.

(** X22: [initialize_memory_storage] is idempotent: a second call changes
    nothing, whatever the state of the module was before the first. *)
Theorem initialize_is_idempotent now now' (m : Memory.State) :
  Memory.initialize_memory_storage now' (Memory.initialize_memory_storage now m)
  = Memory.initialize_memory_storage now m.
Proof.
  rewrite !initialize_components. simpl.
  by rewrite get_memory_token_storage_twice, !get_memory_twice.
Qed.

Lemma act_components_inv a (m : Memory.State) :
  world_inv (Memory.token m) /\ Memory.single_inv (Memory.grid m) /\
  Memory.single_inv (Memory.cdna m) ->
  world_inv (Memory.token (Memory.act GRID_AVAILABLE a m)) /\
  Memory.single_inv (Memory.grid (Memory.act GRID_AVAILABLE a m)) /\
  Memory.single_inv (Memory.cdna (Memory.act GRID_AVAILABLE a m)).
Proof.
  intros (Ht & Hg & Hc).
  pose proof (get_memory_token_storage_inv _ Ht) as Ht'.
  pose proof (single_get_memory GridStorage.fresh_storage _ Hg) as (Hg' & _).
  destruct a as [now| | | |now|a|l o|l o]; simpl.
  - unfold Memory.initialize_memory_storage, Memory.get_memory_cdna_storage,
      Memory.get_memory_grid_storage, Memory.get_memory_token_storage.
    destruct (TokenStorage.get_memory_token_storage _) as [lt w].
    destruct (Memory.get_memory GridStorage.fresh_storage _) as [lg g'].
    pose proof (single_get_memory (CDNAStorage.fresh_storage now) _ Hc) as (Hc' & _).
    destruct (Memory.get_memory (CDNAStorage.fresh_storage now) _) as [lc c'].
    done.
  - split_and!; [by apply cleanup_inv|by apply single_release_inv..].
  - unfold Memory.get_memory_token_storage.
    by destruct (TokenStorage.get_memory_token_storage _).
  - unfold Memory.get_memory_grid_storage.
    by destruct (Memory.get_memory GridStorage.fresh_storage _).
  - unfold Memory.get_memory_cdna_storage.
    pose proof (single_get_memory (CDNAStorage.fresh_storage now) _ Hc) as (Hc' & _).
    by destruct (Memory.get_memory (CDNAStorage.fresh_storage now) _).
  - split_and!; [by apply act_inv|done|done].
  - split_and!; [done|by apply single_call_inv|done].
  - split_and!; [done|done|by apply single_call_inv].
Qed.

Lemma act_components_instance a (m : Memory.State) lg lc :
  Memory.single_inv (Memory.grid m) -> Memory.single_inv (Memory.cdna m) ->
  Memory._instance (Memory.grid m) = Some lg ->
  Memory._instance (Memory.cdna m) = Some lc ->
  Memory._instance (Memory.grid (Memory.act GRID_AVAILABLE a m)) = Some lg /\
  Memory._instance (Memory.cdna (Memory.act GRID_AVAILABLE a m)) = Some lc.
Proof.
  intros Hg Hc Hlg Hlc.
  pose proof (single_get_memory GridStorage.fresh_storage _ Hg)
    as (_ & Hgi & _ & Hgs). destruct (Hgs lg Hlg) as [Hgl _].
  rewrite Hgl in Hgi.
  destruct a as [now| | | |now|a|l o|l o]; simpl; try done.
  - unfold Memory.initialize_memory_storage, Memory.get_memory_cdna_storage,
      Memory.get_memory_grid_storage, Memory.get_memory_token_storage.
    destruct (TokenStorage.get_memory_token_storage _) as [lt w].
    destruct (Memory.get_memory GridStorage.fresh_storage _) as [lg' g'].
    pose proof (single_get_memory (CDNAStorage.fresh_storage now) _ Hc)
      as (_ & Hci & _ & Hcs). destruct (Hcs lc Hlc) as [Hcl _].
    rewrite Hcl in Hci.
    by destruct (Memory.get_memory (CDNAStorage.fresh_storage now) _) as [lc' c'].
  - unfold Memory.get_memory_token_storage.
    by destruct (TokenStorage.get_memory_token_storage _).
  - unfold Memory.get_memory_grid_storage.
    by destruct (Memory.get_memory GridStorage.fresh_storage _).
  - unfold Memory.get_memory_cdna_storage.
    pose proof (single_get_memory (CDNAStorage.fresh_storage now) _ Hc)
      as (_ & Hci & _ & Hcs). destruct (Hcs lc Hlc) as [Hcl _].
    rewrite Hcl in Hci.
    by destruct (Memory.get_memory (CDNAStorage.fresh_storage now) _).
Qed.

Lemma acts_components_inv l (m : Memory.State) :
  world_inv (Memory.token m) /\ Memory.single_inv (Memory.grid m) /\
  Memory.single_inv (Memory.cdna m) ->
  world_inv (Memory.token (Memory.acts GRID_AVAILABLE l m)) /\
  Memory.single_inv (Memory.grid (Memory.acts GRID_AVAILABLE l m)) /\
  Memory.single_inv (Memory.cdna (Memory.acts GRID_AVAILABLE l m)).
Proof.
  revert m. induction l as [|a l IH]; intros m Hinv; [done|].
  simpl. apply IH. by apply act_components_inv.
Qed.

Lemma acts_components_instance l (m : Memory.State) lg lc :
  world_inv (Memory.token m) /\ Memory.single_inv (Memory.grid m) /\
  Memory.single_inv (Memory.cdna m) ->
  Memory._instance (Memory.grid m) = Some lg ->
  Memory._instance (Memory.cdna m) = Some lc ->
  Memory._instance (Memory.grid (Memory.acts GRID_AVAILABLE l m)) = Some lg /\
  Memory._instance (Memory.cdna (Memory.acts GRID_AVAILABLE l m)) = Some lc.
Proof.
  revert m. induction l as [|a l IH]; intros m Hinv Hlg Hlc; [done|].
  simpl. destruct Hinv as (Ht & Hg & Hc).
  destruct (act_components_instance a m lg lc Hg Hc Hlg Hlc) as [Hlg' Hlc'].
  apply IH; [by apply act_components_inv|done|done].
Qed.

(** X23: [cleanup_memory_storage] forgets the three globals but not the
    storages: the classes keep their instances.  After the module was
    initialised and used in any way, a cleanup followed by
    [get_memory_grid_storage] and [get_memory_cdna_storage] hands back the
    same two objects, with every grid, the id counter, the configuration,
    the history and the quarantine state as they were before the cleanup. *)
Theorem cleanup_keeps_grids_and_cdna (before after : list Memory.Action) now now' :
  let m := Memory.acts GRID_AVAILABLE after
             (Memory.initialize_memory_storage now
                (Memory.acts GRID_AVAILABLE before Memory.initial)) in
  let m' := Memory.cleanup_memory_storage m in
  exists lg lc,
    Memory._instance (Memory.grid m) = Some lg /\
    Memory._instance (Memory.cdna m) = Some lc /\
    (Memory.get_memory_grid_storage m').1 = lg /\
    Memory.object lg (Memory.grid (Memory.get_memory_grid_storage m').2)
    = Memory.object lg (Memory.grid m) /\
    is_Some (Memory.object lg (Memory.grid m)) /\
    (Memory.get_memory_cdna_storage now' m').1 = lc /\
    Memory.object lc (Memory.cdna (Memory.get_memory_cdna_storage now' m').2)
    = Memory.object lc (Memory.cdna m) /\
    is_Some (Memory.object lc (Memory.cdna m)).
Proof.
  intros m m'.
  set (m0 := Memory.acts GRID_AVAILABLE before Memory.initial) in *.
  assert (world_inv (Memory.token m0) /\ Memory.single_inv (Memory.grid m0) /\
          Memory.single_inv (Memory.cdna m0)) as Hinv0
    by (by apply acts_components_inv).
  pose proof (act_components_inv (Memory.Initialize now) m0 Hinv0) as Hinv1.
  simpl in Hinv1.
  assert (exists lg lc,
            Memory._instance (Memory.grid (Memory.initialize_memory_storage now m0))
            = Some lg /\
            Memory._instance (Memory.cdna (Memory.initialize_memory_storage now m0))
            = Some lc) as (lg & lc & Hlg & Hlc).
  { destruct Hinv0 as (_ & Hg & Hc).
    unfold Memory.initialize_memory_storage, Memory.get_memory_cdna_storage,
      Memory.get_memory_grid_storage, Memory.get_memory_token_storage.
    destruct (TokenStorage.get_memory_token_storage _) as [lt w]. simpl.
    pose proof (single_get_memory GridStorage.fresh_storage _ Hg) as (_ & Hgi & _).
    destruct (Memory.get_memory GridStorage.fresh_storage _) as [lg g']. simpl.
    pose proof (single_get_memory (CDNAStorage.fresh_storage now) _ Hc)
      as (_ & Hci & _).
    destruct (Memory.get_memory (CDNAStorage.fresh_storage now) _) as [lc c'].
    simpl in *. eauto. }
  destruct (acts_components_instance after _ lg lc Hinv1 Hlg Hlc) as [Hmg Hmc].
  destruct (acts_components_inv after _ Hinv1) as (_ & Hg & Hc).
  fold m in Hmg, Hmc, Hg, Hc.
  exists lg, lc. split; [done|]. split; [done|].
  destruct (single_release_get_memory GridStorage.fresh_storage _ lg Hg Hmg)
    as (Hg1 & Hg2 & Hg3).
  destruct (single_release_get_memory (CDNAStorage.fresh_storage now') _ lc Hc Hmc)
    as (Hc1 & Hc2 & Hc3).
  unfold Memory.get_memory_grid_storage, Memory.get_memory_cdna_storage.
  subst m'. simpl.
  destruct (Memory.get_memory GridStorage.fresh_storage _) as [lg' g'].
  destruct (Memory.get_memory (CDNAStorage.fresh_storage now') _) as [lc' c'].
  simpl in *. done.
Qed.

End MemoryFacts.

Section TokenCleanupFacts.
Context `{TokenIds}.

Lemma get_memory_token_storage_post w :
  world_inv w ->
  TokenStorage.cls_instance (TokenStorage.get_memory_token_storage w).2
  = Some (TokenStorage.get_memory_token_storage w).1 /\
  TokenStorage._token_storage (TokenStorage.get_memory_token_storage w).2
  = Some (TokenStorage.get_memory_token_storage w).1.
Proof.
  intros Hinv. unfold TokenStorage.get_memory_token_storage.
  destruct (TokenStorage._token_storage w) as [l|] eqn:Hts.
  - simpl. split; [|done]. unfold world_inv in Hinv.
    destruct (TokenStorage.cls_instance w) as [l'|]; [|congruence].
    destruct Hinv as [_ [?|?]]; congruence.
  - destruct (construct_inv w Hinv) as [_ Hcls].
    by destruct (TokenStorage.construct w) as [l w'].
Qed.

(** X24: [cleanup_memory_storage] clears the token storage it got through
    [get_memory_token_storage], and the object survives: the next
    [get_memory_token_storage] returns the same storage, now without
    tokens and with the local id counter back at 1.  A storage that was
    only ever constructed directly, so that the global never held it, is
    not cleared at all. *)
Theorem cleanup_clears_the_fetched_token_storage (before : list TokenStorage.Action) :
  let fetched := TokenStorage.get_memory_token_storage
                   (TokenStorage.acts before TokenStorage.initial) in
  let cleaned := TokenStorage.cleanup_memory_storage fetched.2 in
  (TokenStorage.get_memory_token_storage cleaned).1 = fetched.1 /\
  TokenStorage.deref fetched.1 (TokenStorage.get_memory_token_storage cleaned).2
  = Some (TokenStorage.mkStorage true ∅ 1) /\
  (forall w, TokenStorage._token_storage w = None ->
     TokenStorage.heap (TokenStorage.cleanup_memory_storage w) = TokenStorage.heap w).
Proof.
  intros fetched cleaned.
  assert (world_inv (TokenStorage.acts before TokenStorage.initial)) as H0
    by (by apply acts_inv).
  pose proof (get_memory_token_storage_inv _ H0) as H1.
  destruct (get_memory_token_storage_post _ H0) as [Hcls Hts].
  fold fetched in H1, Hcls, Hts.
  assert (world_inv cleaned) as H2 by (by apply cleanup_inv).
  assert (TokenStorage.cls_instance cleaned = Some fetched.1) as Hcls2.
  { subst cleaned. unfold TokenStorage.cleanup_memory_storage. simpl.
    by destruct (TokenStorage._token_storage fetched.2). }
  assert (TokenStorage._token_storage cleaned = None) as Hts2 by done.
  assert (TokenStorage.heap cleaned !! fetched.1
          = Some (TokenStorage.mkStorage true ∅ 1)) as Hheap.
  { subst cleaned. unfold TokenStorage.cleanup_memory_storage. rewrite Hts.
    simpl. rewrite lookup_alter_eq.
    unfold world_inv in H1. rewrite Hcls in H1.
    destruct H1 as [(o & -> & Hinit) _]. simpl. by rewrite Hinit. }
  split_and!.
  - unfold TokenStorage.get_memory_token_storage. rewrite Hts2.
    by rewrite (construct_again cleaned fetched.1).
  - unfold TokenStorage.get_memory_token_storage. rewrite Hts2.
    by rewrite (construct_again cleaned fetched.1).
  - intros w Hw. unfold TokenStorage.cleanup_memory_storage. by rewrite Hw.
Qed.

End TokenCleanupFacts.
